(** * zapfmt: a key-value logger facade over zap, carried through contexts

    A shallow embedding of the Go package [github.com/emiguens/zapfmt]
    (package [log]: [logger.go], [context.go], [interface.go]) together with
    the parts of [go.uber.org/zap], [zapcore], [time] and [strconv] its
    behaviour rests on.

    The sources carry two revisions of [logger.go], [context.go] and
    [interface.go].  They differ in the name of the facade struct
    ([logger] / [Logger]), in the name of the interface ([Logger] /
    [Loggerer]) and in the capitalisation of two string constants
    ([contextKeyLogger] and [NameKey]).  The development follows the
    revision the test suite and the example web server are written
    against: the unexported struct [logger] and the interface [Logger].

    Pointers are indices into the heaps of a [World]; a Go run-time panic,
    [os.Exit] and a nil dereference are the [Abort] outcomes of the monad
    [M]. *)

From Stdlib Require Import ZArith String Ascii List Bool Lia.
From Stdlib Require Import Floats.SpecFloat.
From stdpp Require Import base option list.

Open Scope string_scope.
Open Scope Z_scope.

(** ** Decimal text, as [strconv] and [time] produce it *)

Module strconv.

Definition digit (d : Z) : ascii :=
  ascii_of_nat (48 + Z.to_nat d).

(** The digits of a non-negative number, most significant first. *)
Fixpoint digits_go (fuel : nat) (n : Z) (acc : string) : string :=
  match fuel with
  | O => acc
  | S fuel' =>
      let acc' := String (digit (n mod 10)) acc in
      if n <? 10 then acc' else digits_go fuel' (n / 10) acc'
  end.

Definition digits (n : Z) : string :=
  digits_go (S (Z.to_nat (Z.log2 n))) n "".

(** [strconv.FormatInt(n, 10)]. *)
Definition Itoa (n : Z) : string :=
  if n <? 0 then "-" ++ digits (- n) else digits n.

(** [width] decimal digits of [n mod 10^width], zero padded. *)
Fixpoint pad (width : nat) (n : Z) : string :=
  match width with
  | O => ""
  | S w => pad w (n / 10) ++ String (digit (n mod 10)) ""
  end.

(** *** Shortest decimal of a binary64 value

    [strconv.AppendFloat(b, f, 'f', -1, 64)]: the fewest significant
    digits that read back as [f], the candidate nearest to [f] among
    them, printed without exponent. *)

Definition prec : Z := 53.
Definition emax : Z := 1024.

Definition pow10 (k : Z) : Z := 10 ^ k.

(** [x / y] rounded to the nearest integer, ties to even. *)
Definition div_nearest (x y : Z) : Z :=
  let q := x / y in
  let r := x mod y in
  if 2 * r <? y then q
  else if y <? 2 * r then q + 1
  else if Z.even q then q else q + 1.

(** The interval of reals that round to [m * 2^e], over the common
    denominator [2^k]: numerators of the lower bound, the value and the
    upper bound. *)
Definition round_interval (m : positive) (e : Z) : Z * Z * Z * Z :=
  let k := Z.max 0 (2 - e) in
  let s := e + k - 2 in
  let v := 4 * Zpos m * 2 ^ s in
  let hi := (4 * Zpos m + 2) * 2 ^ s in
  let lo :=
    if (Zpos m =? 2 ^ (prec - 1)) && (3 - emax - prec <? e)
    then (4 * Zpos m - 1) * 2 ^ s
    else (4 * Zpos m - 2) * 2 ^ s in
  (lo, v, hi, 2 ^ k).

(** Does the decimal [c * 10^p] lie in the interval? *)
Definition in_interval (incl : bool) (lo hi den c p : Z) : bool :=
  let '(x, lo', hi') :=
    if 0 <=? p
    then (c * pow10 p * den, lo, hi)
    else (c * den, lo * pow10 (- p), hi * pow10 (- p)) in
  if incl then (lo' <=? x) && (x <=? hi')
  else (lo' <? x) && (x <? hi').

(** The candidate with last digit at position [p]. *)
Definition candidate (v den p : Z) : Z :=
  if 0 <=? p then div_nearest v (den * pow10 p)
  else div_nearest (v * pow10 (- p)) den.

Fixpoint shortest_go (fuel : nat) (incl : bool) (lo v hi den p : Z)
  : Z * Z :=
  let c := candidate v den p in
  match fuel with
  | O => (c, p)
  | S fuel' =>
      if (0 <? c) && in_interval incl lo hi den c p then (c, p)
      else shortest_go fuel' incl lo v hi den (p - 1)
  end.

(** Digits [c] and position [p] with [c * 10^p] the shortest decimal of
    [m * 2^e]. *)
Definition shortest (m : positive) (e : Z) : Z * Z :=
  let '(lo, v, hi, den) := round_interval m e in
  let p0 := Z.of_nat (String.length (digits (v / den))) in
  shortest_go 1200 (Z.even (Zpos m)) lo v hi den p0.

(** ['f'] layout of [c * 10^p]. *)
Definition fixed (c p : Z) : string :=
  if 0 <=? p then digits (c * pow10 p)
  else digits (c / pow10 (- p)) ++ "." ++ pad (Z.to_nat (- p)) c.

Definition FormatFloat (f : spec_float) : string :=
  match f with
  | S754_zero s => if s then "-0" else "0"
  | S754_infinity s => if s then "-Inf" else "+Inf"
  | S754_nan => "NaN"
  | S754_finite s m e =>
      let '(c, p) := shortest m e in
      (if s then "-" else "") ++ fixed c p
  end.

End strconv.

(** Go's [float64]: conversion from [int64] and division. *)
Definition float64 := spec_float.

Definition float64_of_int (n : Z) : float64 :=
  binary_normalize strconv.prec strconv.emax n 0 false.

Definition float64_div (x y : float64) : float64 :=
  SFdiv strconv.prec strconv.emax x y.

(** The constant [n / d] as the compiler rounds it, for decimal literals
    such as [1234.5678]. *)
Definition float64_lit (n d : Z) : float64 :=
  float64_div (float64_of_int n) (float64_of_int d).

(** ** Package [time] *)

Module time.

(** [time.Duration]: nanoseconds as an [int64]. *)
Definition Duration := Z.
Definition Nanosecond : Duration := 1.
Definition Microsecond : Duration := 1000 * Nanosecond.
Definition Millisecond : Duration := 1000 * Microsecond.
Definition Second : Duration := 1000 * Millisecond.

(** An instant (seconds and nanoseconds since the Unix epoch) and the
    zone it is displayed in, as seconds east of UTC. *)
Record Time := mkTime { sec : Z; nsec : Z; offset : Z }.

(** [time.Unix(sec, nsec)]; Go's integer division truncates. *)
Definition Unix (s n : Z) : Time :=
  if (n <? 0) || (1000000000 <=? n) then
    let k := Z.quot n 1000000000 in
    let s1 := s + k in
    let n1 := n - k * 1000000000 in
    if n1 <? 0 then mkTime (s1 - 1) (n1 + 1000000000) 0
    else mkTime s1 n1 0
  else mkTime s n 0.

(** [t.UTC()]: the same instant, displayed in UTC. *)
Definition UTC (t : Time) : Time := mkTime (sec t) (nsec t) 0.

(** Year, month and day of the day number [days] counted from
    1970-01-01, in the proleptic Gregorian calendar. *)
Definition civil (days : Z) : Z * Z * Z :=
  let z := days + 719468 in
  let era := z / 146097 in
  let doe := z - era * 146097 in
  let yoe := (doe - doe / 1460 + doe / 36524 - doe / 146096) / 365 in
  let doy := doe - (365 * yoe + yoe / 4 - yoe / 100) in
  let mp := (5 * doy + 2) / 153 in
  let d := doy - (153 * mp + 2) / 5 + 1 in
  let m := if mp <? 10 then mp + 3 else mp - 9 in
  let y := yoe + era * 400 + (if m <=? 2 then 1 else 0) in
  (y, m, d).

(** [appendInt]: sign, then at least [width] digits. *)
Definition appendInt (x : Z) (width : nat) : string :=
  let u := Z.abs x in
  let ds := strconv.digits u in
  (if x <? 0 then "-" else "")
    ++ (if (String.length ds <? width)%nat then strconv.pad width u else ds).

(** The pieces a layout string is cut into ([nextStdChunk]). *)
Inductive chunk :=
| stdLongYear | stdZeroMonth | stdZeroDay
| stdHour | stdZeroMinute | stdZeroSecond
| stdFracSecond0 (n : nat)
| stdISO8601ColonTZ
| lit (s : string).

Definition formatChunk (t : Time) (c : chunk) : string :=
  let abs := sec t + offset t in
  let '(y, m, d) := civil (abs / 86400) in
  let secs := abs mod 86400 in
  match c with
  | stdLongYear => appendInt y 4
  | stdZeroMonth => appendInt m 2
  | stdZeroDay => appendInt d 2
  | stdHour => appendInt (secs / 3600) 2
  | stdZeroMinute => appendInt (secs mod 3600 / 60) 2
  | stdZeroSecond => appendInt (secs mod 60) 2
  | stdFracSecond0 n =>
      "." ++ strconv.pad n (nsec t / 10 ^ (9 - Z.of_nat n))
  | stdISO8601ColonTZ =>
      if offset t =? 0 then "Z"
      else
        let zone := Z.quot (offset t) 60 in
        (if zone <? 0 then "-" else "+")
          ++ appendInt (Z.abs zone / 60) 2 ++ ":"
          ++ appendInt (Z.abs zone mod 60) 2
  | lit s => s
  end.

(** [t.Format(layout)], the layout given by its chunks. *)
Definition Format (t : Time) (layout : list chunk) : string :=
  fold_right (fun c acc => formatChunk t c ++ acc) "" layout.

End time.

(** ** Package [zapcore] *)

Module zapcore.

(** [type Level int8]. *)
Definition Level := Z.
Definition DebugLevel : Level := -1.
Definition InfoLevel : Level := 0.
Definition WarnLevel : Level := 1.
Definition ErrorLevel : Level := 2.
Definition DPanicLevel : Level := 3.
Definition PanicLevel : Level := 4.
Definition FatalLevel : Level := 5.

(** [Level.String]. *)
Definition Level_String (l : Level) : string :=
  if l =? DebugLevel then "debug"
  else if l =? InfoLevel then "info"
  else if l =? WarnLevel then "warn"
  else if l =? ErrorLevel then "error"
  else if l =? DPanicLevel then "dpanic"
  else if l =? PanicLevel then "panic"
  else if l =? FatalLevel then "fatal"
  else "Level(" ++ strconv.Itoa l ++ ")".

(** [l.Enabled(lvl)]: [lvl >= l]. *)
Definition Level_Enabled (l lvl : Level) : bool := l <=? lvl.

(** What an encoder callback appends to a [PrimitiveArrayEncoder]. *)
Inductive Prim :=
| AppendString (s : string)
| AppendFloat64 (f : float64)
| AppendInt64 (n : Z).

Definition LowercaseLevelEncoder (l : Level) : Prim :=
  AppendString (Level_String l).

Definition SecondsDurationEncoder (d : time.Duration) : Prim :=
  AppendFloat64 (float64_div (float64_of_int d) (float64_of_int time.Second)).

(** [runtime.Caller] result, as [NewEntryCaller] keeps it. *)
Record EntryCaller := mkCaller { Defined : bool; File : string; Line : Z }.

Fixpoint LastIndexByte (s : string) (c : ascii) : option nat :=
  match s with
  | EmptyString => None
  | String a s' =>
      match LastIndexByte s' c with
      | Some i => Some (S i)
      | None => if Ascii.eqb a c then Some O else None
      end
  end.

Definition FullPath (ec : EntryCaller) : string :=
  File ec ++ ":" ++ strconv.Itoa (Line ec).

(** [EntryCaller.TrimmedPath]: the last two segments of the path. *)
Definition TrimmedPath (ec : EntryCaller) : string :=
  if Defined ec then
    match LastIndexByte (File ec) "/" with
    | None => FullPath ec
    | Some idx =>
        match LastIndexByte (String.substring 0 idx (File ec)) "/" with
        | None => FullPath ec
        | Some idx' =>
            String.substring (S idx') (String.length (File ec) - S idx')
              (File ec) ++ ":" ++ strconv.Itoa (Line ec)
        end
    end
  else "undefined".

Definition ShortCallerEncoder (ec : EntryCaller) : Prim :=
  AppendString (TrimmedPath ec).

Record Entry := mkEntry {
  Level_ : Level;
  Time_ : time.Time;
  LoggerName : string;
  Message : string;
  Caller : EntryCaller;
  Stack : string
}.

(** The value of a [zapcore.Field], by field type. *)
Inductive FieldValue :=
| StringType (s : string)
| Int64Type (n : Z)
| Float64Type (f : float64)
| BoolType (b : bool)
| DurationType (d : time.Duration)
| TimeType (t : time.Time)
| ErrorType (msg : string)
| StringerType (s : string)
| ReflectType (dump : string).

Record Field := mkField { Key : string; Value : FieldValue }.

Record EncoderConfig := mkEncoderConfig {
  MessageKey : string;
  LevelKey : string;
  TimeKey : string;
  NameKey : string;
  CallerKey : string;
  StacktraceKey : string;
  LineEnding : string;
  EncodeLevel : Level -> Prim;
  EncodeTime : time.Time -> Prim;
  EncodeDuration : time.Duration -> Prim;
  EncodeCaller : EntryCaller -> Prim
}.

Definition DefaultLineEnding : string := String "010"%char "".

End zapcore.

(** ** Package [encoders]: the key-value encoder *)

Module encoders.
Import zapcore.

(** Modelled from the spec: [encoders.NewKeyValueEncoder] and the
    encoder it returns; package [encoders] is not among the sources.
    One record is one line of bracketed segments,
    [[ts:..][level:..][logger:..][caller:..][msg:..][k:v]..[stacktrace:..]],
    the logger segment only for a non-empty name and the stacktrace
    segment only for a non-empty trace.  The key of each metadata
    segment is the one [newZapCoreAtLevel] configures in
    [zapcore.EncoderConfig]; keys and values are written verbatim.
    Fields added with [With] are rendered into the encoder's buffer at
    once and precede the fields of the call site. *)
Record keyValueEncoder := mkEncoder {
  cfg : EncoderConfig;
  buf : string
}.

(** Modelled from the spec: [encoders.NewKeyValueEncoder(cfg)], an encoder
    with an empty buffer. *)
Definition NewKeyValueEncoder (c : EncoderConfig) : keyValueEncoder :=
  mkEncoder c "".

(** Modelled from the spec: the text of a primitive value appended to the
    encoder; a float is printed with the fewest digits that read back (the
    suite expects [0.374] and [1234.5678]). *)
Definition appendPrim (p : Prim) : string :=
  match p with
  | AppendString s => s
  | AppendFloat64 f => strconv.FormatFloat f
  | AppendInt64 n => strconv.Itoa n
  end.

(** Modelled from the spec: one bracketed segment, [[key:value]]. *)
Definition segment (key val : string) : string :=
  "[" ++ key ++ ":" ++ val ++ "]".

(** Modelled from the spec: the value of a field, by type; durations and
    times go through the callbacks of the configuration, an error is its
    message, a reflected value its dump. *)
Definition fieldValue (c : EncoderConfig) (v : FieldValue) : string :=
  match v with
  | StringType s => s
  | Int64Type n => strconv.Itoa n
  | Float64Type f => strconv.FormatFloat f
  | BoolType b => if b then "true" else "false"
  | DurationType d => appendPrim (EncodeDuration c d)
  | TimeType t => appendPrim (EncodeTime c t)
  | ErrorType msg => msg
  | StringerType s => s
  | ReflectType dump => dump
  end.

(** Modelled from the spec: a field is the segment of its key and
    value. *)
Definition addField (c : EncoderConfig) (f : Field) : string :=
  segment (Key f) (fieldValue c (Value f)).

(** Modelled from the spec: fields are rendered one after the other, in
    the order given. *)
Fixpoint addFields (c : EncoderConfig) (fs : list Field) : string :=
  match fs with
  | [] => ""
  | f :: fs' => addField c f ++ addFields c fs'
  end.

(** Modelled from the spec: [enc.Clone()] followed by [addFields], which
    is what [ioCore.With] does with its encoder; the fields are appended
    to the buffer of the clone. *)
Definition With (enc : keyValueEncoder) (fs : list Field)
  : keyValueEncoder :=
  mkEncoder (cfg enc) (buf enc ++ addFields (cfg enc) fs).

(** Modelled from the spec: the segments before the fields. *)
Definition header (c : EncoderConfig) (ent : Entry) : string :=
  segment (TimeKey c) (appendPrim (EncodeTime c (Time_ ent)))
    ++ segment (LevelKey c) (appendPrim (EncodeLevel c (Level_ ent)))
    ++ (if String.eqb (LoggerName ent) "" then ""
        else segment (NameKey c) (LoggerName ent))
    ++ segment (CallerKey c) (appendPrim (EncodeCaller c (Caller ent)))
    ++ segment (MessageKey c) (Message ent).

(** Modelled from the spec: the segments after the fields, and the line
    ending. *)
Definition trailer (c : EncoderConfig) (ent : Entry) : string :=
  (if String.eqb (Stack ent) "" then ""
   else segment (StacktraceKey c) (Stack ent))
    ++ LineEnding c.

(** Modelled from the spec: [enc.EncodeEntry(ent, fields)], one line. *)
Definition EncodeEntry (enc : keyValueEncoder) (ent : Entry)
    (fields : list Field) : string :=
  header (cfg enc) ent
    ++ buf enc ++ addFields (cfg enc) fields
    ++ trailer (cfg enc) ent.

End encoders.

(** ** The state of the process *)

(** Addresses: indices into the heaps below. *)
Abbreviation loc := nat (only parsing).

(** Modelled from the spec: the constructor [coreWithLevel], the level
    wrapper of package [log], whose source file is not among the sources:
    a core and the [zap.AtomicLevel] its minimum level is read from.  The
    other implementers of [zapcore.Core] the package meets are
    [zapcore.NewNopCore()] and the [ioCore] of [zapcore.NewCore], writing
    to the locked [os.Stderr]. *)
Inductive Core :=
| nopCore
| ioCore (enc : encoders.keyValueEncoder) (lvl : zapcore.Level)
| coreWithLevel (inner : Core) (lvl : loc).

(** [zap.Logger]. *)
Record zap_Logger := mkLogger {
  core : Core;
  development : bool;
  name : string;
  addCaller : bool;
  addStack : zapcore.Level;
  callerSkip : Z
}.

Record World := mkWorld {
  levels : list zapcore.Level;   (** the cells of [zap.AtomicLevel]s *)
  zaps : list zap_Logger;        (** [zap.Logger] structs *)
  loggers : list loc;            (** [logger] structs: the embedded
                                     [*zap.Logger] *)
  stderr : list string;          (** writes to [os.Stderr], oldest first *)
  now : time.Time;               (** what [time.Now()] returns *)
  DefaultLogger : loc            (** [var DefaultLogger *logger] *)
}.

Definition set_levels (f : list zapcore.Level -> list zapcore.Level)
    (w : World) : World :=
  mkWorld (f (levels w)) (zaps w) (loggers w) (stderr w) (now w)
    (DefaultLogger w).

Definition set_zaps (f : list zap_Logger -> list zap_Logger) (w : World)
  : World :=
  mkWorld (levels w) (f (zaps w)) (loggers w) (stderr w) (now w)
    (DefaultLogger w).

Definition set_loggers (f : list loc -> list loc) (w : World) : World :=
  mkWorld (levels w) (zaps w) (f (loggers w)) (stderr w) (now w)
    (DefaultLogger w).

Definition set_stderr (f : list string -> list string) (w : World) : World :=
  mkWorld (levels w) (zaps w) (loggers w) (f (stderr w)) (now w)
    (DefaultLogger w).

(** How a call can end other than by returning. *)
Inductive Signal :=
| Exit (code : Z)          (** [os.Exit(code)] *)
| GoPanic (msg : string)   (** [panic(msg)] *)
| NilDeref.                (** invalid memory address *)

Inductive Result (A : Type) :=
| Ret (a : A) (w : World)
| Abort (s : Signal) (w : World).
Arguments Ret {A} a w.
Arguments Abort {A} s w.

Definition M (A : Type) := World -> Result A.

Definition ret {A} (a : A) : M A := fun w => Ret a w.

Definition bind {A B} (m : M A) (k : A -> M B) : M B :=
  fun w => match m w with
           | Ret a w' => k a w'
           | Abort s w' => Abort s w'
           end.

Definition abort {A} (s : Signal) : M A := fun w => Abort s w.

Notation "'do' x <- m ; k" := (bind m (fun x => k))
  (at level 10, x name, m at level 100, k at level 200).
Notation "'do_' m ; k" := (bind m (fun _ => k))
  (at level 10, m at level 100, k at level 200).

(** The world a call leaves behind. *)
Definition world_of {A} (r : Result A) : World :=
  match r with Ret _ w => w | Abort _ w => w end.

(** Reading a heap cell; a dangling address faults. *)
Definition deref {A} (heap : World -> list A) (p : loc) : M A :=
  fun w => match heap w !! p with
           | Some x => Ret x w
           | None => Abort NilDeref w
           end.

Definition alloc_level (l : zapcore.Level) : M loc :=
  fun w => Ret (length (levels w)) (set_levels (fun h => (h ++ [l])%list) w).

Definition alloc_zap (z : zap_Logger) : M loc :=
  fun w => Ret (length (zaps w)) (set_zaps (fun h => (h ++ [z])%list) w).

Definition alloc_logger (z : loc) : M loc :=
  fun w => Ret (length (loggers w)) (set_loggers (fun h => (h ++ [z])%list) w).

Definition write_stderr (line : string) : M unit :=
  fun w => Ret tt (set_stderr (fun o => (o ++ [line])%list) w).

(** ** Package [runtime]: the call stack *)

Module runtime.

Record Frame := mkFrame { Func : string; FrameFile : string; FrameLine : Z }.

(** [runtime.Caller(skip)] on a stack whose head is the function that
    calls it.  Method wrappers the compiler generates for promoted
    methods are not frames. *)
Definition Caller (stack : list Frame) (skip : Z) : zapcore.EntryCaller :=
  if skip <? 0 then zapcore.mkCaller false "" 0
  else match nth_error stack (Z.to_nat skip) with
       | Some f => zapcore.mkCaller true (FrameFile f) (FrameLine f)
       | None => zapcore.mkCaller false "" 0
       end.

Definition frameString (f : Frame) : string :=
  Func f ++ String "010"%char (String "009"%char "")
    ++ FrameFile f ++ ":" ++ strconv.Itoa (FrameLine f).

(** The text of a stack trace: one entry per frame, newline joined. *)
Fixpoint traceString (stack : list Frame) : string :=
  match stack with
  | [] => ""
  | [f] => frameString f
  | f :: rest => frameString f ++ String "010"%char "" ++ traceString rest
  end.

End runtime.

(** ** Cores and checked entries ([zapcore]) *)

Inductive CheckWriteAction := WriteThenNoop | WriteThenPanic | WriteThenFatal.

(** [zapcore.CheckedEntry]; the nil pointer is [None]. *)
Record CheckedEntry := mkChecked {
  ce_Entry : zapcore.Entry;
  should : CheckWriteAction;
  cores : list Core
}.

(** [ce.AddCore(ent, core)]. *)
Definition AddCore (ce : option CheckedEntry) (ent : zapcore.Entry) (c : Core)
  : option CheckedEntry :=
  match ce with
  | None => Some (mkChecked ent WriteThenNoop [c])
  | Some e => Some (mkChecked (ce_Entry e) (should e) (cores e ++ [c])%list)
  end.

(** [ce.Should(ent, should)]. *)
Definition Should (ce : option CheckedEntry) (ent : zapcore.Entry)
    (s : CheckWriteAction) : option CheckedEntry :=
  match ce with
  | None => Some (mkChecked ent s [])
  | Some e => Some (mkChecked (ce_Entry e) s (cores e))
  end.

(** Modelled from the spec: [Enabled] of the level wrapper, which reads
    the minimum level from its [zap.AtomicLevel] at decision time.  The
    other cases are [core.Enabled(lvl)] of zapcore. *)
Definition Core_Enabled (w : World) (c : Core) (lvl : zapcore.Level) : bool :=
  match c with
  | nopCore => false
  | ioCore _ l => zapcore.Level_Enabled l lvl
  | coreWithLevel _ h =>
      match levels w !! h with
      | Some l => zapcore.Level_Enabled l lvl
      | None => false
      end
  end.

(** Modelled from the spec: [With] of the level wrapper, which keeps its
    level holder.  The other cases are [core.With(fields)] of zapcore. *)
Fixpoint Core_With (c : Core) (fs : list zapcore.Field) : Core :=
  match c with
  | nopCore => nopCore
  | ioCore enc l => ioCore (encoders.With enc fs) l
  | coreWithLevel inner h => coreWithLevel (Core_With inner fs) h
  end.

(** Modelled from the spec: [Check] of the level wrapper, which adds
    itself to the entry when its holder enables the level.  The other
    cases are [core.Check(ent, ce)] of zapcore. *)
Definition Core_Check (w : World) (c : Core) (ent : zapcore.Entry)
    (ce : option CheckedEntry) : option CheckedEntry :=
  match c with
  | nopCore => ce
  | _ => if Core_Enabled w c (zapcore.Level_ ent) then AddCore ce ent c else ce
  end.

(** Modelled from the spec: [Write] of the level wrapper, that of the
    core it wraps.  The other cases are [core.Write(ent, fields)] of
    zapcore; the [Sync] of [ioCore.Write] above [ErrorLevel] leaves no
    trace in the model. *)
Fixpoint Core_Write (c : Core) (ent : zapcore.Entry)
    (fields : list zapcore.Field) : M unit :=
  match c with
  | nopCore => ret tt
  | ioCore enc _ => write_stderr (encoders.EncodeEntry enc ent fields)
  | coreWithLevel inner _ => Core_Write inner ent fields
  end.

Fixpoint write_cores (cs : list Core) (ent : zapcore.Entry)
    (fields : list zapcore.Field) : M unit :=
  match cs with
  | [] => ret tt
  | c :: cs' => do_ Core_Write c ent fields; write_cores cs' ent fields
  end.

(** [ce.Write(fields...)] on a non-nil entry. *)
Definition CheckedEntry_Write (ce : CheckedEntry)
    (fields : list zapcore.Field) : M unit :=
  do_ write_cores (cores ce) (ce_Entry ce) fields;
  match should ce with
  | WriteThenNoop => ret tt
  | WriteThenPanic => abort (GoPanic (zapcore.Message (ce_Entry ce)))
  | WriteThenFatal => abort (Exit 1)
  end.

(** ** Package [zap] *)

Module zap.
Import zapcore.

Inductive Option :=
| AddCaller
| AddCallerSkip (skip : Z)
| AddStacktrace (lvl : Level)
| WrapCore (f : Core -> Core)
| Development.

Definition apply (o : Option) (log : zap_Logger) : zap_Logger :=
  match o with
  | AddCaller =>
      mkLogger (core log) (development log) (name log) true
        (addStack log) (callerSkip log)
  | AddCallerSkip skip =>
      mkLogger (core log) (development log) (name log) (addCaller log)
        (addStack log) (callerSkip log + skip)
  | AddStacktrace lvl =>
      mkLogger (core log) (development log) (name log) (addCaller log)
        lvl (callerSkip log)
  | WrapCore f =>
      mkLogger (f (core log)) (development log) (name log) (addCaller log)
        (addStack log) (callerSkip log)
  | Development =>
      mkLogger (core log) true (name log) (addCaller log)
        (addStack log) (callerSkip log)
  end.

(** [zap.NewAtomicLevelAt(l)]: a fresh cell. *)
Definition NewAtomicLevelAt (l : Level) : M loc := alloc_level l.

(** [lvl.SetLevel(l)]. *)
Definition SetLevel (h : loc) (l : Level) : M unit :=
  fun w => match levels w !! h with
           | Some _ => Ret tt (set_levels (fun c => <[h:=l]> c) w)
           | None => Abort NilDeref w
           end.

(** [log.WithOptions(opts...)]: the options are applied to a clone,
    which is returned; the receiver is left as it was. *)
Definition WithOptions (p : loc) (opts : list Option) : M loc :=
  do log <- deref zaps p;
  alloc_zap (fold_left (fun l o => apply o l) opts log).

(** [zap.New(core, options...)]. *)
Definition New (c : Core) (opts : list Option) : M loc :=
  do p <- alloc_zap (mkLogger c false "" false (FatalLevel + 1) 0);
  WithOptions p opts.

(** [zap.NewNop()]. *)
Definition NewNop : M loc :=
  alloc_zap (mkLogger nopCore false "" false (FatalLevel + 1) 0).

(** [log.Named(s)]. *)
Definition Named (p : loc) (s : string) : M loc :=
  if String.eqb s "" then ret p
  else
    do log <- deref zaps p;
    alloc_zap
      (mkLogger (core log) (development log)
         (if String.eqb (name log) "" then s else name log ++ "." ++ s)
         (addCaller log) (addStack log) (callerSkip log)).

(** [log.With(fields...)]. *)
Definition With (p : loc) (fields : list Field) : M loc :=
  match fields with
  | [] => ret p
  | _ =>
      do log <- deref zaps p;
      alloc_zap
        (mkLogger (Core_With (core log) fields) (development log)
           (name log) (addCaller log) (addStack log) (callerSkip log))
  end.

(** [log.Sugar()]: the [SugaredLogger] holds a clone whose caller skip
    is raised by two; the result is the address of that clone. *)
Definition Sugar (p : loc) : M loc :=
  do log <- deref zaps p;
  alloc_zap
    (mkLogger (core log) (development log) (name log) (addCaller log)
       (addStack log) (callerSkip log + 2)).

Definition callerSkipOffset : Z := 2.

(** The frames of [check] and of the exported method that calls it. *)
Definition ownFrames : list runtime.Frame :=
  [runtime.mkFrame "go.uber.org/zap.(*Logger).check"
     "go.uber.org/zap/logger.go" 0;
   runtime.mkFrame "go.uber.org/zap.(*Logger)"
     "go.uber.org/zap/logger.go" 0].

Definition withCaller (ce : CheckedEntry) (c : EntryCaller) (st : string)
  : CheckedEntry :=
  let e := ce_Entry ce in
  mkChecked
    (mkEntry (Level_ e) (Time_ e) (LoggerName e) (Message e) c st)
    (should ce) (cores ce).

(** [log.check(lvl, msg)]; [stk] is the stack of the caller of the
    exported method. *)
Definition check (p : loc) (lvl : Level) (msg : string)
    (stk : list runtime.Frame) : M (option CheckedEntry) :=
  do log <- deref zaps p;
  fun w =>
    let ent :=
      mkEntry lvl (now w) (name log) msg (mkCaller false "" 0) "" in
    let ce := Core_Check w (core log) ent None in
    let willWrite := match ce with Some _ => true | None => false end in
    let ce :=
      if Level_ ent =? PanicLevel then Should ce ent WriteThenPanic
      else if Level_ ent =? FatalLevel then Should ce ent WriteThenFatal
      else if Level_ ent =? DPanicLevel then
        if development log then Should ce ent WriteThenPanic else ce
      else ce in
    match ce with
    | Some e =>
        if willWrite then
          let c :=
            if addCaller log
            then runtime.Caller (ownFrames ++ stk)%list
                   (callerSkip log + callerSkipOffset)
            else Caller ent in
          let st :=
            if Level_Enabled (addStack log) (Level_ (ce_Entry e))
            then runtime.traceString stk
            else "" in
          Ret (Some (withCaller e c st)) w
        else Ret ce w
    | None => Ret None w
    end.

Definition writeIf (ce : option CheckedEntry) (fields : list Field)
  : M unit :=
  match ce with
  | Some e => CheckedEntry_Write e fields
  | None => ret tt
  end.

Definition Check := check.

Definition Debug (p : loc) (msg : string) (fields : list Field)
    (stk : list runtime.Frame) : M unit :=
  do ce <- check p DebugLevel msg stk; writeIf ce fields.

Definition Info (p : loc) (msg : string) (fields : list Field)
    (stk : list runtime.Frame) : M unit :=
  do ce <- check p InfoLevel msg stk; writeIf ce fields.

Definition Warn (p : loc) (msg : string) (fields : list Field)
    (stk : list runtime.Frame) : M unit :=
  do ce <- check p WarnLevel msg stk; writeIf ce fields.

Definition Error (p : loc) (msg : string) (fields : list Field)
    (stk : list runtime.Frame) : M unit :=
  do ce <- check p ErrorLevel msg stk; writeIf ce fields.

Definition DPanic (p : loc) (msg : string) (fields : list Field)
    (stk : list runtime.Frame) : M unit :=
  do ce <- check p DPanicLevel msg stk; writeIf ce fields.

Definition Panic (p : loc) (msg : string) (fields : list Field)
    (stk : list runtime.Frame) : M unit :=
  do ce <- check p PanicLevel msg stk; writeIf ce fields.

Definition Fatal (p : loc) (msg : string) (fields : list Field)
    (stk : list runtime.Frame) : M unit :=
  do ce <- check p FatalLevel msg stk; writeIf ce fields.

(** Field constructors. *)
Definition String_ (k v : string) : Field := mkField k (StringType v).
Definition Int64 (k : string) (v : Z) : Field := mkField k (Int64Type v).
Definition Float64 (k : string) (v : float64) : Field :=
  mkField k (Float64Type v).
Definition Bool (k : string) (v : bool) : Field := mkField k (BoolType v).
Definition Duration (k : string) (v : time.Duration) : Field :=
  mkField k (DurationType v).
Definition Time (k : string) (v : time.Time) : Field :=
  mkField k (TimeType v).
(** [zap.Error(err)], [err] given by its message. *)
Definition Error_ (msg : string) : Field := mkField "error" (ErrorType msg).

End zap.

(** ** Package [context] *)

Module context.

(** Keys: values of package [log]'s private type [contextKey], and the
    keys of everybody else. *)
Inductive Key :=
| contextKey (s : string)
| foreignKey (n : nat).

Definition Key_eqb (a b : Key) : bool :=
  match a, b with
  | contextKey s, contextKey t => String.eqb s t
  | foreignKey n, foreignKey m => Nat.eqb n m
  | _, _ => false
  end.

(** What an [interface{}] stored in a context holds: a [*logger], nil,
    or a value of some other type. *)
Inductive Any :=
| anyLogger (p : loc)
| anyNil
| anyOther (n : nat).

Inductive Context :=
| Background
| WithValue (parent : Context) (key : Key) (val : Any).

(** [ctx.Value(key)]. *)
Fixpoint Value (ctx : Context) (key : Key) : Any :=
  match ctx with
  | Background => anyNil
  | WithValue parent k v => if Key_eqb k key then v else Value parent key
  end.

End context.

(** ** Package [log] *)

Module log.
Import zapcore context.

(** The interface [Logger]; [*logger] is its implementer. *)
Inductive Logger :=
| LoggerPtr (p : loc)
| nilLogger.

Definition toAny (l : Logger) : Any :=
  match l with
  | LoggerPtr p => anyLogger p
  | nilLogger => anyNil
  end.

(** *** logger.go *)

(** Modelled from the spec: [wrapCoreWithLevel], whose source file is
    not among the sources.  The option wraps the core so that the
    minimum level is read from the given [zap.AtomicLevel]; applied to
    a core that is already wrapped it yields the variant bound to the
    new holder. *)
Definition wrapCoreWithLevel (lvl : loc) : zap.Option :=
  zap.WrapCore (fun c =>
    match c with
    | coreWithLevel inner _ => coreWithLevel inner lvl
    | _ => coreWithLevel c lvl
    end).

(** The layout ["2006-01-02T15:04:05.000000Z07:00"]. *)
Definition RFC3339Micro : list time.chunk :=
  [time.stdLongYear; time.lit "-"; time.stdZeroMonth; time.lit "-";
   time.stdZeroDay; time.lit "T"; time.stdHour; time.lit ":";
   time.stdZeroMinute; time.lit ":"; time.stdZeroSecond;
   time.stdFracSecond0 6; time.stdISO8601ColonTZ].

Definition rfc3399NanoTimeEncoder (t : time.Time) : Prim :=
  AppendString (time.Format (time.UTC t) RFC3339Micro).

(** The [encoderConfig] of [newZapCoreAtLevel], in the revision of the
    unexported [logger]; the revision of the exported [Logger] differs in
    [NameKey], which it spells ["Logger"]. *)
Definition encoderConfig : EncoderConfig :=
  {| TimeKey := "ts";
     LevelKey := "level";
     NameKey := "logger";
     CallerKey := "caller";
     MessageKey := "msg";
     StacktraceKey := "stacktrace";
     LineEnding := DefaultLineEnding;
     EncodeLevel := LowercaseLevelEncoder;
     EncodeTime := rfc3399NanoTimeEncoder;
     EncodeDuration := SecondsDurationEncoder;
     EncodeCaller := ShortCallerEncoder |}.

Definition newZapCoreAtLevel (lvl : Level) : Core :=
  ioCore (encoders.NewKeyValueEncoder encoderConfig) lvl.

(** [NewProductionLogger(lvl)]. *)
Definition NewProductionLogger (lvl : loc) : M Logger :=
  let zapCore := newZapCoreAtLevel DebugLevel in
  do l <- zap.New zapCore
            [zap.AddCaller; zap.AddCallerSkip 1;
             zap.AddStacktrace ErrorLevel; wrapCoreWithLevel lvl];
  do q <- alloc_logger l;
  ret (LoggerPtr q).

(** [l.WithLevel(level)]. *)
Definition logger_WithLevel (l : loc) (level : Level) : M Logger :=
  do z <- deref loggers l;
  do lvl <- zap.NewAtomicLevelAt level;
  do child <- zap.WithOptions z [wrapCoreWithLevel lvl];
  do q <- alloc_logger child;
  ret (LoggerPtr q).

(** [l.With(fields...)]. *)
Definition logger_With (l : loc) (fields : list Field) : M Logger :=
  do z <- deref loggers l;
  do child <- zap.With z fields;
  do q <- alloc_logger child;
  ret (LoggerPtr q).

(** [l.Named(s)]. *)
Definition logger_Named (l : loc) (s : string) : M Logger :=
  do z <- deref loggers l;
  do child <- zap.Named z s;
  do q <- alloc_logger child;
  ret (LoggerPtr q).

(** *** interface.go: calls through the interface

    The remaining methods of [*logger] are those of the embedded
    [*zap.Logger]. *)

Definition onLogger {A} (l : Logger) (f : loc -> M A) : M A :=
  match l with
  | LoggerPtr p => do z <- deref loggers p; f z
  | nilLogger => abort NilDeref
  end.

Definition Logger_Check (l : Logger) (lvl : Level) (msg : string)
    (stk : list runtime.Frame) : M (option CheckedEntry) :=
  onLogger l (fun z => zap.Check z lvl msg stk).

Definition Logger_Sugar (l : Logger) : M loc :=
  onLogger l zap.Sugar.

Definition Logger_Named (l : Logger) (s : string) : M Logger :=
  match l with
  | LoggerPtr p => logger_Named p s
  | nilLogger => abort NilDeref
  end.

Definition Logger_With (l : Logger) (fields : list Field) : M Logger :=
  match l with
  | LoggerPtr p => logger_With p fields
  | nilLogger => abort NilDeref
  end.

Definition Logger_WithLevel (l : Logger) (lvl : Level) : M Logger :=
  match l with
  | LoggerPtr p => logger_WithLevel p lvl
  | nilLogger => abort NilDeref
  end.

Definition Logger_DPanic (l : Logger) (msg : string) (fields : list Field)
    (stk : list runtime.Frame) : M unit :=
  onLogger l (fun z => zap.DPanic z msg fields stk).

Definition Logger_Debug (l : Logger) (msg : string) (fields : list Field)
    (stk : list runtime.Frame) : M unit :=
  onLogger l (fun z => zap.Debug z msg fields stk).

Definition Logger_Error (l : Logger) (msg : string) (fields : list Field)
    (stk : list runtime.Frame) : M unit :=
  onLogger l (fun z => zap.Error z msg fields stk).

Definition Logger_Fatal (l : Logger) (msg : string) (fields : list Field)
    (stk : list runtime.Frame) : M unit :=
  onLogger l (fun z => zap.Fatal z msg fields stk).

Definition Logger_Info (l : Logger) (msg : string) (fields : list Field)
    (stk : list runtime.Frame) : M unit :=
  onLogger l (fun z => zap.Info z msg fields stk).

Definition Logger_Panic (l : Logger) (msg : string) (fields : list Field)
    (stk : list runtime.Frame) : M unit :=
  onLogger l (fun z => zap.Panic z msg fields stk).

Definition Logger_Warn (l : Logger) (msg : string) (fields : list Field)
    (stk : list runtime.Frame) : M unit :=
  onLogger l (fun z => zap.Warn z msg fields stk).

(** *** context.go *)

Definition contextKeyLogger : Key := contextKey "zap-logger".

(** [getLogger(ctx)]; the type assertion fails on nil and on values
    that are no [Logger]. *)
Definition getLogger (ctx : Context) : M Logger :=
  fun w => match Value ctx contextKeyLogger with
           | anyLogger p => Ret (LoggerPtr p) w
           | _ => Ret (LoggerPtr (DefaultLogger w)) w
           end.

(** [Context(ctx, log)].  The logger [WithOptions] returns is not
    used. *)
Definition Context (ctx : context.Context) (log : Logger)
  : M context.Context :=
  do_ match log with
      | LoggerPtr l =>
          do z <- deref loggers l;
          do_ zap.WithOptions z [zap.AddCallerSkip 1];
          ret tt
      | nilLogger => ret tt
      end;
  ret (WithValue ctx contextKeyLogger (toAny log)).

(** The frame of a function of this file, as its callee sees it. *)
Definition frame (fn : string) (line : Z) : runtime.Frame :=
  runtime.mkFrame ("github.com/emiguens/zapfmt." ++ fn)
    "github.com/emiguens/zapfmt/context.go" line.

Definition Sugar (ctx : context.Context) : M loc :=
  do l <- getLogger ctx; Logger_Sugar l.

Definition Named (ctx : context.Context) (s : string)
  : M context.Context :=
  do l <- getLogger ctx;
  do logger <- Logger_Named l s;
  ret (WithValue ctx contextKeyLogger (toAny logger)).

Definition With (ctx : context.Context) (fields : list Field)
  : M context.Context :=
  do l <- getLogger ctx;
  do logger <- Logger_With l fields;
  ret (WithValue ctx contextKeyLogger (toAny logger)).

Definition WithLevel (ctx : context.Context) (lvl : Level)
  : M context.Context :=
  do l <- getLogger ctx;
  do logger <- Logger_WithLevel l lvl;
  ret (WithValue ctx contextKeyLogger (toAny logger)).

Definition Check (ctx : context.Context) (lvl : Level) (msg : string)
    (stk : list runtime.Frame) : M (option CheckedEntry) :=
  do l <- getLogger ctx;
  Logger_Check l lvl msg (frame "Check" 61 :: stk).

Definition DPanic (ctx : context.Context) (msg : string)
    (fields : list Field) (stk : list runtime.Frame) : M unit :=
  do l <- getLogger ctx;
  Logger_DPanic l msg fields (frame "DPanic" 71 :: stk).

Definition Debug (ctx : context.Context) (msg : string)
    (fields : list Field) (stk : list runtime.Frame) : M unit :=
  do l <- getLogger ctx;
  Logger_Debug l msg fields (frame "Debug" 77 :: stk).

Definition Error (ctx : context.Context) (msg : string)
    (fields : list Field) (stk : list runtime.Frame) : M unit :=
  do l <- getLogger ctx;
  Logger_Error l msg fields (frame "Error" 83 :: stk).

Definition Fatal (ctx : context.Context) (msg : string)
    (fields : list Field) (stk : list runtime.Frame) : M unit :=
  do l <- getLogger ctx;
  Logger_Fatal l msg fields (frame "Fatal" 92 :: stk).

Definition Info (ctx : context.Context) (msg : string)
    (fields : list Field) (stk : list runtime.Frame) : M unit :=
  do l <- getLogger ctx;
  Logger_Info l msg fields (frame "Info" 98 :: stk).

Definition Panic (ctx : context.Context) (msg : string)
    (fields : list Field) (stk : list runtime.Frame) : M unit :=
  do l <- getLogger ctx;
  Logger_Panic l msg fields (frame "Panic" 106 :: stk).

Definition Warn (ctx : context.Context) (msg : string)
    (fields : list Field) (stk : list runtime.Frame) : M unit :=
  do l <- getLogger ctx;
  Logger_Warn l msg fields (frame "Warn" 112 :: stk).

(** The process at start: [var DefaultLogger = &logger{Logger:
    zap.NewNop()}], nothing written. *)
Definition start (t : time.Time) : World :=
  mkWorld [] [mkLogger nopCore false "" false (FatalLevel + 1) 0] [O%nat]
    [] t O.

End log.

(** ** Package [net/http]: requests and their headers *)

Module http.

(** [validHeaderFieldByte]: the token characters of RFC 7230. *)
Definition validHeaderFieldByte (c : ascii) : bool :=
  let n := nat_of_ascii c in
  ((48 <=? n) && (n <=? 57))%nat        (* 0-9 *)
  || ((65 <=? n) && (n <=? 90))%nat     (* A-Z *)
  || ((97 <=? n) && (n <=? 122))%nat    (* a-z *)
  || existsb (Nat.eqb n)
       [33; 35; 36; 37; 38; 39; 42; 43; 45; 46; 94; 95; 96; 124; 126]%nat.

Fixpoint allValid (s : string) : bool :=
  match s with
  | EmptyString => true
  | String c s' => validHeaderFieldByte c && allValid s'
  end.

(** The loop of [canonicalMIMEHeaderKey]: upper case at the start and
    after each dash, lower case elsewhere. *)
Fixpoint canonicalize (upper : bool) (s : string) : string :=
  match s with
  | EmptyString => EmptyString
  | String c s' =>
      let n := nat_of_ascii c in
      let c' :=
        if upper && (97 <=? n)%nat && (n <=? 122)%nat
        then ascii_of_nat (n - 32)
        else if negb upper && (65 <=? n)%nat && (n <=? 90)%nat
             then ascii_of_nat (n + 32)
             else c in
      String c' (canonicalize (Ascii.eqb c' "-") s')
  end.

(** [textproto.CanonicalMIMEHeaderKey]: a key with a byte that is no token
    character is returned unchanged. *)
Definition CanonicalMIMEHeaderKey (s : string) : string :=
  if allValid s then canonicalize true s else s.

(** [http.Header], a [map[string][]string]; the first binding of a key is
    the binding. *)
Definition Header := list (string * list string).

Fixpoint lookup (h : Header) (key : string) : list string :=
  match h with
  | [] => []
  | (k, v) :: h' => if String.eqb k key then v else lookup h' key
  end.

(** [h.Get(key)]: the first value under the canonical form of [key], and
    [""] if there is none. *)
Definition Get (h : Header) (key : string) : string :=
  match lookup h (CanonicalMIMEHeaderKey key) with
  | [] => ""
  | v :: _ => v
  end.

(** What the handlers read of a [*http.Request]: the text of its URL, its
    header and its context. *)
Record Request := mkRequest {
  URL : string;
  Header_ : Header;
  Context : context.Context
}.

(** [r.WithContext(ctx)]. *)
Definition WithContext (r : Request) (ctx : context.Context) : Request :=
  mkRequest (URL r) (Header_ r) ctx.

End http.

(** ** The example web server ([examples/webserver/main.go]) *)

Module main.
Import zapcore.

(** What the surroundings decide while one request is served: the number
    [rand.Int63n(100)] returns, the result of [uuid.NewV4()] (the text of
    the UUID, or the error), the time that passes while the response is
    written, and the dump the encoder makes of a header. *)
Record Env := mkEnv {
  Int63n : Z;
  NewV4 : string + string;
  busy : time.Duration;
  dump : http.Header -> string
}.

(** [t.Add(d)]; Go's division and remainder truncate. *)
Definition Add (t : time.Time) (d : time.Duration) : time.Time :=
  let dsec := Z.quot d 1000000000 in
  let n := time.nsec t + Z.rem d 1000000000 in
  if 1000000000 <=? n
  then time.mkTime (time.sec t + dsec + 1) (n - 1000000000) (time.offset t)
  else if n <? 0
       then time.mkTime (time.sec t + dsec - 1) (n + 1000000000)
              (time.offset t)
       else time.mkTime (time.sec t + dsec) n (time.offset t).

(** [t.Sub(u)], on the wall clock: the difference in nanoseconds, cut to
    the range of an [int64]. *)
Definition Sub (t u : time.Time) : time.Duration :=
  let d := (time.sec t - time.sec u) * time.Second
           + (time.nsec t - time.nsec u) in
  Z.max (- 2 ^ 63) (Z.min (2 ^ 63 - 1) d).

(** [time.Now()]. *)
Definition Now : M time.Time := fun w => Ret (now w) w.

(** The clock moves on by [d]. *)
Definition elapse (d : time.Duration) : M unit :=
  fun w =>
    Ret tt (mkWorld (levels w) (zaps w) (loggers w) (stderr w)
              (Add (now w) d) (DefaultLogger w)).

(** An [http.HandlerFunc]: the surroundings, the stack of its caller, the
    response written so far and the request; it returns the response. *)
Definition Handler :=
  Env -> list runtime.Frame -> list string -> http.Request -> M (list string).

Definition file : string := "github.com/emiguens/zapfmt/examples/webserver/main.go".

(** The frames a middleware adds when it calls [next.ServeHTTP]. *)
Definition calling (fn : string) (line : Z) (stk : list runtime.Frame)
  : list runtime.Frame :=
  runtime.mkFrame "net/http.HandlerFunc.ServeHTTP" "net/http/server.go" 1995
    :: runtime.mkFrame fn file line :: stk.

Definition greet : Handler := fun env stk w r =>
  do start <- Now;
  do_ log.Debug (http.Context r) "handling request"
        [mkField "url" (StringerType (http.URL r));
         mkField "headers" (ReflectType (dump env (http.Header_ r)))]
        (runtime.mkFrame "main.greet" file 17 :: stk);
  let w' := (w ++ ["Hello World!"])%list in
  do_ elapse (busy env);
  do t <- Now;
  do_ log.Debug (http.Context r) "request time"
        [zap.Duration "elapsed" (Sub t start)]
        (runtime.mkFrame "main.greet" file 24 :: stk);
  ret w'.

(** [changeLogLevel(next, percentage)]. *)
Definition changeLogLevel (next : Handler) (percentage : Z) : Handler :=
  fun env stk w r =>
    do r <- (if Int63n env <? percentage
             then do ctx <- log.WithLevel (http.Context r) DebugLevel;
                  ret (http.WithContext r ctx)
             else ret r);
    next env (calling "main.changeLogLevel.func1" 37 stk) w r.

(** [withRequestID(next)]; [uuid.Must] panics on the error of
    [uuid.NewV4]. *)
Definition withRequestID (next : Handler) : Handler :=
  fun env stk w r =>
    let requestID := http.Get (http.Header_ r) "x-request-id" in
    do requestID <- (if String.eqb requestID ""
                     then match NewV4 env with
                          | inl u => ret u
                          | inr err => abort (GoPanic err)
                          end
                     else ret requestID);
    do ctx <- log.With (http.Context r) [zap.String_ "request_id" requestID];
    next env (calling "main.withRequestID.func1" 54 stk) w
      (http.WithContext r ctx).

(** [attachLogger(next, logger)]. *)
Definition attachLogger (next : Handler) (logger : log.Logger) : Handler :=
  fun env stk w r =>
    do ctx <- log.Context (http.Context r) logger;
    next env (calling "main.attachLogger.func1" 64 stk) w
      (http.WithContext r ctx).

(** The handler [main] mounts on ["/"]. *)
Definition handler (logger : log.Logger) : Handler :=
  attachLogger (withRequestID (changeLogLevel greet 10)) logger.

(** The first statements of [main]: the holder at [ErrorLevel] and the
    logger on it. *)
Definition setup : M (loc * log.Logger) :=
  do lvl <- zap.NewAtomicLevelAt ErrorLevel;
  do logger <- log.NewProductionLogger lvl;
  ret (lvl, logger).

(** The request id [withRequestID] settles on: the header, or a fresh UUID
    if the header is empty or missing; the error of [uuid.NewV4] if that
    fails. *)
Definition requestID (env : Env) (r : http.Request) : string + string :=
  let id := http.Get (http.Header_ r) "x-request-id" in
  if String.eqb id "" then NewV4 env else inl id.

End main.

(** ** Vocabulary of the properties *)

(** The [zap.Logger] behind a facade. *)
Definition view (w : World) (l : log.Logger) : option zap_Logger :=
  match l with
  | log.LoggerPtr p =>
      match loggers w !! p with
      | Some z => zaps w !! z
      | None => None
      end
  | log.nilLogger => None
  end.

(** The level holder a core reads its minimum level from. *)
Definition holder (c : Core) : option loc :=
  match c with
  | coreWithLevel _ h => Some h
  | _ => None
  end.

(** The core under the level wrapper. *)
Definition root (c : Core) : Core :=
  match c with
  | coreWithLevel inner _ => inner
  | _ => c
  end.

(** The effective minimum level of a facade bound to a holder. *)
Definition threshold (w : World) (l : log.Logger) : option zapcore.Level :=
  match view w l with
  | Some z =>
      match holder (core z) with
      | Some h => levels w !! h
      | None => None
      end
  | None => None
  end.

(** The emit decision of a facade. *)
Definition enabled (w : World) (l : log.Logger) (lvl : zapcore.Level) : bool :=
  match view w l with
  | Some z => Core_Enabled w (core z) lvl
  | None => false
  end.

(** The holders a core refers to exist. *)
Definition core_ok (w : World) (c : Core) : Prop :=
  match holder c with
  | Some h => is_Some (levels w !! h)
  | None => True
  end.

(** [w'] is [w] with more cells allocated: every cell of [w] is still
    there with its content, and nothing was written to [os.Stderr]. *)
Record extends (w w' : World) : Prop := mkExtends {
  ext_levels : levels w `prefix_of` levels w';
  ext_zaps : zaps w `prefix_of` zaps w';
  ext_loggers : loggers w `prefix_of` loggers w';
  ext_stderr : stderr w' = stderr w;
  ext_now : now w' = now w;
  ext_default : DefaultLogger w' = DefaultLogger w
}.

(** Later writes to a holder, oldest first. *)
Definition writes (h : loc) (vs : list zapcore.Level) (w : World) : World :=
  fold_left (fun w v => world_of (zap.SetLevel h v w)) vs w.

(** The derivations of a facade. *)
Inductive Deriv :=
| DNamed (s : string)
| DWith (fields : list zapcore.Field)
| DWithLevel (lvl : zapcore.Level).

Definition derive1 (d : Deriv) (l : log.Logger) : M log.Logger :=
  match d with
  | DNamed s => log.Logger_Named l s
  | DWith fs => log.Logger_With l fs
  | DWithLevel lvl => log.Logger_WithLevel l lvl
  end.

Fixpoint derive (ds : list Deriv) (l : log.Logger) : M log.Logger :=
  match ds with
  | [] => ret l
  | d :: ds' => do l' <- derive1 d l; derive ds' l'
  end.

(** The same derivations on a context. *)
Definition derive_ctx1 (d : Deriv) (ctx : context.Context)
  : M context.Context :=
  match d with
  | DNamed s => log.Named ctx s
  | DWith fs => log.With ctx fs
  | DWithLevel lvl => log.WithLevel ctx lvl
  end.

Fixpoint derive_ctx (ds : list Deriv) (ctx : context.Context)
  : M context.Context :=
  match ds with
  | [] => ret ctx
  | d :: ds' => do ctx' <- derive_ctx1 d ctx; derive_ctx ds' ctx'
  end.

(** The fields a chain of derivations adds, in order. *)
Fixpoint added (ds : list Deriv) : list zapcore.Field :=
  match ds with
  | [] => []
  | DWith fs :: ds' => (fs ++ added ds')%list
  | _ :: ds' => added ds'
  end.

(** The name segments a chain of derivations adds, in order. *)
Fixpoint segments (ds : list Deriv) : list string :=
  match ds with
  | [] => []
  | DNamed s :: ds' => s :: segments ds'
  | _ :: ds' => segments ds'
  end.

(** [strings.Join] of the non-empty names with ["."]. *)
Fixpoint joinDots (ss : list string) : string :=
  match ss with
  | [] => ""
  | s :: ss' =>
      if String.eqb s "" then joinDots ss'
      else if String.eqb (joinDots ss') "" then s
      else s ++ "." ++ joinDots ss'
  end.

(** No value was ever stored under the package's key. *)
Fixpoint never_attached (ctx : context.Context) : bool :=
  match ctx with
  | context.Background => true
  | context.WithValue parent k _ =>
      negb (context.Key_eqb k log.contextKeyLogger) && never_attached parent
  end.

(** Logging at a level: every exported method of [zap.Logger] has this
    shape. *)
Definition logAt (lvl : zapcore.Level) (p : loc) (msg : string)
    (fields : list zapcore.Field) (stk : list runtime.Frame) : M unit :=
  do ce <- zap.check p lvl msg stk; zap.writeIf ce fields.

(** A production logger on a fresh holder, in the process at start. *)
Definition production (lvl : zapcore.Level) : Result log.Logger :=
  (do h <- zap.NewAtomicLevelAt lvl; log.NewProductionLogger h)
    (log.start (time.Unix 0 0)).

(** The [zap.Logger] a derivation builds from [z]; [fresh] is the
    address of the holder [WithLevel] allocates. *)
Definition derived (d : Deriv) (fresh : loc) (z : zap_Logger) : zap_Logger :=
  match d with
  | DNamed s =>
      if String.eqb s "" then z
      else mkLogger (core z) (development z)
             (if String.eqb (name z) "" then s else name z ++ "." ++ s)
             (addCaller z) (addStack z) (callerSkip z)
  | DWith fs =>
      match fs with
      | [] => z
      | _ => mkLogger (Core_With (core z) fs) (development z) (name z)
               (addCaller z) (addStack z) (callerSkip z)
      end
  | DWithLevel _ =>
      mkLogger (coreWithLevel (root (core z)) fresh) (development z) (name z)
        (addCaller z) (addStack z) (callerSkip z)
  end.

(** What follows the write of an entry of level [lvl]. *)
Definition terminal (dev : bool) (lvl : zapcore.Level) : CheckWriteAction :=
  if lvl =? zapcore.PanicLevel then WriteThenPanic
  else if lvl =? zapcore.FatalLevel then WriteThenFatal
  else if lvl =? zapcore.DPanicLevel then
    if dev then WriteThenPanic else WriteThenNoop
  else WriteThenNoop.

(** The entry [check] hands to the cores when the record is written. *)
Definition entryFor (z : zap_Logger) (w : World) (lvl : zapcore.Level)
    (msg : string) (stk : list runtime.Frame) : zapcore.Entry :=
  zapcore.mkEntry lvl (now w) (name z) msg
    (if addCaller z
     then runtime.Caller (zap.ownFrames ++ stk)%list
            (callerSkip z + zap.callerSkipOffset)
     else zapcore.mkCaller false "" 0)
    (if zapcore.Level_Enabled (addStack z) lvl
     then runtime.traceString stk else "").

(** The lines a core writes for an entry. *)
Fixpoint written (c : Core) (ent : zapcore.Entry)
    (fields : list zapcore.Field) : list string :=
  match c with
  | nopCore => []
  | ioCore enc _ => [encoders.EncodeEntry enc ent fields]
  | coreWithLevel inner _ => written inner ent fields
  end.

(** How a write ends, by what follows it. *)
Definition outcome (a : CheckWriteAction) (msg : string) (w : World)
  : Result unit :=
  match a with
  | WriteThenNoop => Ret tt w
  | WriteThenPanic => Abort (GoPanic msg) w
  | WriteThenFatal => Abort (Exit 1) w
  end.

(** The lines a call at level [lvl] adds to [os.Stderr]. *)
Definition emitted (z : zap_Logger) (w : World) (lvl : zapcore.Level)
    (msg : string) (fields : list zapcore.Field) (stk : list runtime.Frame)
  : list string :=
  if Core_Enabled w (core z) lvl
  then written (core z) (entryFor z w lvl msg stk) fields
  else [].

(** A logging method of the interface, at level [lvl]. *)
Definition Logger_log (lvl : zapcore.Level) (l : log.Logger) (msg : string)
    (fields : list zapcore.Field) (stk : list runtime.Frame) : M unit :=
  log.onLogger l (fun z => logAt lvl z msg fields stk).

(** The name after [Named s]. *)
Definition nameStep (n s : string) : string :=
  if String.eqb s "" then n
  else if String.eqb n "" then s else n ++ "." ++ s.

(** The facade writes nothing: its core is the no-op core, possibly under
    a level wrapper, and it is not in development mode. *)
Definition silent (w : World) (l : log.Logger) : Prop :=
  exists z, view w l = Some z /\ root (core z) = nopCore
            /\ development z = false.

(** The date and time of day of the layout, before the fraction. *)
Definition RFC3339Seconds : list time.chunk :=
  [time.stdLongYear; time.lit "-"; time.stdZeroMonth; time.lit "-";
   time.stdZeroDay; time.lit "T"; time.stdHour; time.lit ":";
   time.stdZeroMinute; time.lit ":"; time.stdZeroSecond].

(** A case of the test suite: a production logger on a fresh holder at
    [lvl] is handed to [f]; the clock stands at the epoch. *)
Definition testCase {A} (lvl : zapcore.Level) (f : log.Logger -> M A)
  : Result A :=
  (do h <- zap.NewAtomicLevelAt lvl;
   do l <- log.NewProductionLogger h;
   f l) (log.start (time.Unix 0 0)).

(** The stack of a statement of the test function. *)
Definition testFrames (line : Z) : list runtime.Frame :=
  [runtime.mkFrame "github.com/emiguens/zapfmt_test.TestKeyValueLogger.func1"
     "/go/src/github.com/emiguens/zapfmt/logger_test.go" line].

(** The timestamp segment of a record written at the epoch. *)
Definition ts : string := "[ts:1970-01-01T00:00:00.000000Z]".

(** The lines of [os.Stderr], without their line ending. *)
Definition withEndings (ls : list string) : list string :=
  map (fun l => l ++ zapcore.DefaultLineEnding) ls.

(** Two derivations are of the same kind. *)
Definition sameKind (d1 d2 : Deriv) : bool :=
  match d1, d2 with
  | DNamed _, DNamed _ => true
  | DWith _, DWith _ => true
  | DWithLevel _, DWithLevel _ => true
  | _, _ => false
  end.

(** The level of the last [WithLevel] of a chain, if it has one. *)
Fixpoint lastLevel (ds : list Deriv) : option zapcore.Level :=
  match ds with
  | [] => None
  | d :: ds' =>
      match lastLevel ds' with
      | Some l => Some l
      | None => match d with DWithLevel l => Some l | _ => None end
      end
  end.

(** The facade [greet] logs on, given the one [attachLogger] attached:
    with the request id, and on a holder of its own at [DebugLevel] when
    the request was picked. *)
Definition requestLogger (env : main.Env) (id : string) (fresh : loc)
    (z : zap_Logger) : zap_Logger :=
  let c := Core_With (core z) [zap.String_ "request_id" id] in
  mkLogger (if main.Int63n env <? 10 then coreWithLevel (root c) fresh else c)
    (development z) (name z) (addCaller z) (addStack z) (callerSkip z).

(** The stack at the calls of [greet]. *)
Definition greetStack (line : Z) (stk : list runtime.Frame)
  : list runtime.Frame :=
  log.frame "Debug" 77
    :: runtime.mkFrame "main.greet" main.file line
    :: main.calling "main.changeLogLevel.func1" 37
         (main.calling "main.withRequestID.func1" 54
            (main.calling "main.attachLogger.func1" 64 stk)).

(** The lines one request adds to [os.Stderr] when the facade attached
    stands for [z] and the request id is [id]: the two records of [greet],
    if the request was picked or the attached facade logs at
    [DebugLevel]. *)
Definition served (env : main.Env) (id : string) (z : zap_Logger)
    (w : World) (r : http.Request) (stk : list runtime.Frame) : list string :=
  let zr := requestLogger env id (length (levels w)) z in
  let w2 := world_of (main.elapse (main.busy env) w) in
  if (main.Int63n env <? 10) || Core_Enabled w (core z) zapcore.DebugLevel
  then (written (core zr)
          (entryFor zr w zapcore.DebugLevel "handling request"
             (greetStack 17 stk))
          [zapcore.mkField "url" (zapcore.StringerType (http.URL r));
           zapcore.mkField "headers"
             (zapcore.ReflectType (main.dump env (http.Header_ r)))]
        ++ written (core zr)
             (entryFor zr w2 zapcore.DebugLevel "request time"
                (greetStack 24 stk))
             [zap.Duration "elapsed" (main.Sub (now w2) (now w))])%list
  else [].

(** ** Heaps and the monad *)

Section Frame.

Lemma extends_refl w : extends w w.
Proof. split; reflexivity. Qed.

Lemma extends_trans w1 w2 w3 :
  extends w1 w2 -> extends w2 w3 -> extends w1 w3.
Proof.
  intros [] []; split; try (etrans; eassumption); congruence.
Qed.

Lemma extends_level w w' h l :
  extends w w' -> levels w !! h = Some l -> levels w' !! h = Some l.
Proof. intros [] ?. eapply prefix_lookup_Some; eassumption. Qed.

Lemma extends_zap w w' z x :
  extends w w' -> zaps w !! z = Some x -> zaps w' !! z = Some x.
Proof. intros [] ?. eapply prefix_lookup_Some; eassumption. Qed.

Lemma extends_logger w w' p z :
  extends w w' -> loggers w !! p = Some z -> loggers w' !! p = Some z.
Proof. intros [] ?. eapply prefix_lookup_Some; eassumption. Qed.

Lemma extends_view w w' l z :
  extends w w' -> view w l = Some z -> view w' l = Some z.
Proof.
  intros E. destruct l as [p|]; unfold view; [|done].
  destruct (loggers w !! p) as [q|] eqn:Hp; [|done].
  intros Hz. rewrite (extends_logger _ _ _ _ E Hp).
  eapply extends_zap; eassumption.
Qed.

Lemma extends_enabled w w' c lvl :
  extends w w' -> core_ok w c ->
  Core_Enabled w' c lvl = Core_Enabled w c lvl.
Proof.
  intros E. destruct c as [| |inner h]; unfold Core_Enabled; try done.
  unfold core_ok, holder. intros [l Hl].
  rewrite Hl, (extends_level _ _ _ _ E Hl). done.
Qed.

Lemma bind_Ret {A B} (m : M A) (k : A -> M B) w a w1 :
  m w = Ret a w1 -> bind m k w = k a w1.
Proof. unfold bind. intros ->. done. Qed.

Lemma bind_Abort {A B} (m : M A) (k : A -> M B) w s w1 :
  m w = Abort s w1 -> bind m k w = Abort s w1.
Proof. unfold bind. intros ->. done. Qed.

Lemma deref_Some {A} (heap : World -> list A) p x w :
  heap w !! p = Some x -> deref heap p w = Ret x w.
Proof. unfold deref. intros ->. done. Qed.

Lemma extends_alloc_level w l :
  extends w (set_levels (fun h => (h ++ [l])%list) w).
Proof. split; simpl; try done. by apply prefix_app_r. Qed.

Lemma extends_alloc_zap w z :
  extends w (set_zaps (fun h => (h ++ [z])%list) w).
Proof. split; simpl; try done. by apply prefix_app_r. Qed.

Lemma extends_alloc_logger w z :
  extends w (set_loggers (fun h => (h ++ [z])%list) w).
Proof. split; simpl; try done. by apply prefix_app_r. Qed.

Lemma lookup_fresh {A} (h : list A) x : (h ++ [x])%list !! length h = Some x.
Proof. by rewrite lookup_app_r, Nat.sub_diag. Qed.

Lemma core_ok_extends w w' c : extends w w' -> core_ok w c -> core_ok w' c.
Proof.
  unfold core_ok. destruct (holder c); [|done].
  intros E [l Hl]. exists l. eapply extends_level; eassumption.
Qed.

End Frame.

(** ** Derivations *)

Section Derivations.

(** What one derivation does: it allocates, and the new facade stands
    for the derived [zap.Logger]. *)
Lemma derive1_spec d p z w :
  view w (log.LoggerPtr p) = Some z ->
  exists q w',
    derive1 d (log.LoggerPtr p) w = Ret (log.LoggerPtr q) w'
    /\ q = length (loggers w)
    /\ extends w w'
    /\ view w' (log.LoggerPtr q) = Some (derived d (length (levels w)) z)
    /\ levels w' = match d with
                    | DWithLevel lvl => (levels w ++ [lvl])%list
                    | _ => levels w
                    end.
Proof.
  unfold view. destruct (loggers w !! p) as [a|] eqn:Hp; [|done].
  intros Hz. destruct d as [s|fs|lvl]; simpl.
  - unfold log.logger_Named, zap.Named, bind, deref. rewrite Hp.
    destruct (String.eqb s "") eqn:Hs.
    + eexists _, _. split; [reflexivity|]. split; [done|].
      split; [apply extends_alloc_logger|]. split; [|done].
      simpl. rewrite lookup_fresh. done.
    + rewrite Hz.
      eexists _, _. split; [reflexivity|]. split; [done|].
      split.
      { eapply extends_trans;
          [apply extends_alloc_zap|apply extends_alloc_logger]. }
      split; [|done]. simpl. rewrite !lookup_fresh. done.
  - unfold log.logger_With, zap.With, bind, deref. rewrite Hp.
    destruct fs as [|f fs].
    + eexists _, _. split; [reflexivity|]. split; [done|].
      split; [apply extends_alloc_logger|]. split; [|done].
      simpl. rewrite lookup_fresh. done.
    + rewrite Hz.
      eexists _, _. split; [reflexivity|]. split; [done|].
      split.
      { eapply extends_trans;
          [apply extends_alloc_zap|apply extends_alloc_logger]. }
      split; [|done]. simpl. rewrite !lookup_fresh. done.
  - unfold log.logger_WithLevel, zap.NewAtomicLevelAt, zap.WithOptions,
      bind, deref.
    rewrite Hp. simpl. rewrite Hz.
    eexists _, _. split; [reflexivity|]. split; [done|].
    split.
    { eapply extends_trans; [apply extends_alloc_level|].
      eapply extends_trans;
        [apply extends_alloc_zap|apply extends_alloc_logger]. }
    split.
    + simpl. rewrite !lookup_fresh. simpl.
      destruct (core z); reflexivity.
    + reflexivity.
Qed.

End Derivations.

(** ** Level holders *)

Section Holders.

Lemma SetLevel_run h v w :
  is_Some (levels w !! h) ->
  zap.SetLevel h v w = Ret tt (set_levels (fun c => <[h:=v]> c) w).
Proof. unfold zap.SetLevel. intros [l ->]. done. Qed.

(** Writes to a holder change that cell and nothing else. *)
Lemma writes_spec h vs : forall w cur,
  levels w !! h = Some cur ->
  zaps (writes h vs w) = zaps w
  /\ loggers (writes h vs w) = loggers w
  /\ stderr (writes h vs w) = stderr w
  /\ levels (writes h vs w) !! h = Some (default cur (last vs))
  /\ (forall h', h' <> h -> levels (writes h vs w) !! h' = levels w !! h').
Proof.
  induction vs as [|v vs IH]; intros w cur Hc; [by simpl|].
  unfold writes; simpl. rewrite SetLevel_run by eauto. simpl.
  set (w1 := set_levels _ w).
  assert (H1 : levels w1 !! h = Some v).
  { subst w1; simpl. apply list_lookup_insert_eq.
    eapply lookup_lt_Some; eassumption. }
  destruct (IH w1 v H1) as (Hz & Hl & Ho & Hh & Hother).
  fold (writes h vs w1). rewrite Hz, Hl, Ho. repeat split; try done.
  - rewrite Hh, last_cons. by destruct (last vs).
  - intros h' Hne. rewrite Hother by done.
    subst w1; simpl. by apply list_lookup_insert_ne.
Qed.

Lemma getLogger_default ctx :
  never_attached ctx = true ->
  context.Value ctx log.contextKeyLogger = context.anyNil.
Proof.
  induction ctx as [|parent IH k v]; [done|]. simpl.
  intros [Hk Hp]%andb_prop.
  apply negb_true_iff in Hk. unfold context.Key_eqb in *.
  destruct k; [rewrite Hk|]; by apply IH.
Qed.

End Holders.

(** ** Checking and writing *)

Section Checking.

Lemma Core_Write_run c ent fields w :
  Core_Write c ent fields w
  = Ret tt (set_stderr (fun o => (o ++ written c ent fields)%list) w).
Proof.
  induction c as [|enc l|inner IH h]; simpl; try done.
  unfold ret, set_stderr. rewrite app_nil_r. by destruct w.
Qed.

Lemma Core_Enabled_nop w c lvl : Core_Enabled w c lvl = true -> c <> nopCore.
Proof. by destruct c. Qed.

(** [check] on an enabled level: the entry is annotated and carries the
    core. *)
Lemma check_enabled p z lvl msg stk w :
  zaps w !! p = Some z ->
  Core_Enabled w (core z) lvl = true ->
  zap.check p lvl msg stk w
  = Ret (Some (mkChecked (entryFor z w lvl msg stk)
                 (terminal (development z) lvl) [core z])) w.
Proof.
  intros Hz He. unfold zap.check, bind, deref. rewrite Hz.
  unfold Core_Check. simpl zapcore.Level_.
  assert (Hn := Core_Enabled_nop _ _ _ He).
  destruct (core z) as [|enc l|inner h] eqn:Hc; [done| |];
    rewrite He; unfold terminal, entryFor; simpl;
    destruct (lvl =? zapcore.PanicLevel);
    [|destruct (lvl =? zapcore.FatalLevel);
      [|destruct (lvl =? zapcore.DPanicLevel);
        [destruct (development z)|]]|
     |destruct (lvl =? zapcore.FatalLevel);
      [|destruct (lvl =? zapcore.DPanicLevel);
        [destruct (development z)|]]];
    reflexivity.
Qed.

(** [check] on a disabled level: no entry, or an entry without cores that
    only carries what follows the write. *)
Lemma check_disabled p z lvl msg stk w :
  zaps w !! p = Some z ->
  Core_Enabled w (core z) lvl = false ->
  zap.check p lvl msg stk w
  = Ret (match terminal (development z) lvl with
         | WriteThenNoop => None
         | a => Some (mkChecked
                        (zapcore.mkEntry lvl (now w) (name z) msg
                           (zapcore.mkCaller false "" 0) "") a [])
         end) w.
Proof.
  intros Hz He. unfold zap.check, bind, deref. rewrite Hz.
  unfold Core_Check. simpl zapcore.Level_.
  assert (Hce : match core z with
                | nopCore => None
                | _ => if Core_Enabled w (core z) lvl
                       then AddCore None
                              (zapcore.mkEntry lvl (now w) (name z) msg
                                 (zapcore.mkCaller false "" 0) "") (core z)
                       else None
                end = None).
  { rewrite He. by destruct (core z). }
  rewrite Hce. unfold terminal.
  destruct (lvl =? zapcore.PanicLevel); [done|].
  destruct (lvl =? zapcore.FatalLevel); [done|].
  destruct (lvl =? zapcore.DPanicLevel); [|done].
  by destruct (development z).
Qed.

(** Every exported logging method: the record is written if the level is
    enabled, and then the call ends as the level demands. *)
Lemma logAt_run p z lvl msg fields stk w :
  zaps w !! p = Some z ->
  logAt lvl p msg fields stk w
  = outcome (terminal (development z) lvl) msg
      (set_stderr (fun o => (o ++ emitted z w lvl msg fields stk)%list) w).
Proof.
  intros Hz. unfold logAt, emitted.
  destruct (Core_Enabled w (core z) lvl) eqn:He.
  - rewrite (bind_Ret _ _ _ _ _ (check_enabled p z lvl msg stk w Hz He)).
    unfold zap.writeIf, CheckedEntry_Write; simpl.
    erewrite bind_Ret;
      [|erewrite bind_Ret; [reflexivity|apply Core_Write_run]].
    by destruct (terminal (development z) lvl).
  - rewrite (bind_Ret _ _ _ _ _ (check_disabled p z lvl msg stk w Hz He)).
    assert (Hw : set_stderr (fun o => (o ++ [])%list) w = w).
    { unfold set_stderr. rewrite app_nil_r. by destruct w. }
    rewrite Hw.
    by destruct (terminal (development z) lvl).
Qed.

Lemma view_inv w p z :
  view w (log.LoggerPtr p) = Some z ->
  exists q, loggers w !! p = Some q /\ zaps w !! q = Some z.
Proof.
  unfold view. destruct (loggers w !! p) as [q|]; [|done]. by exists q.
Qed.

Lemma onLogger_run {A} p q (f : nat -> M A) w :
  loggers w !! p = Some q -> log.onLogger (log.LoggerPtr p) f w = f q w.
Proof. intros H. unfold log.onLogger, bind, deref. by rewrite H. Qed.

(** [Check] through the interface: the world is left as it is. *)
Lemma Logger_Check_run p z lvl msg stk w :
  view w (log.LoggerPtr p) = Some z ->
  log.Logger_Check (log.LoggerPtr p) lvl msg stk w
  = Ret (if Core_Enabled w (core z) lvl
         then Some (mkChecked (entryFor z w lvl msg stk)
                      (terminal (development z) lvl) [core z])
         else match terminal (development z) lvl with
              | WriteThenNoop => None
              | a => Some (mkChecked
                             (zapcore.mkEntry lvl (now w) (name z) msg
                                (zapcore.mkCaller false "" 0) "") a [])
              end) w.
Proof.
  intros Hv. destruct (view_inv _ _ _ Hv) as (q & Hp & Hz).
  unfold log.Logger_Check. rewrite (onLogger_run _ _ _ _ Hp).
  unfold zap.Check.
  destruct (Core_Enabled w (core z) lvl) eqn:He.
  - by apply check_enabled.
  - by apply check_disabled.
Qed.

End Checking.

Lemma terminal_Noop dev lvl :
  terminal dev lvl = WriteThenNoop
  <-> lvl <> zapcore.PanicLevel /\ lvl <> zapcore.FatalLevel
      /\ (lvl = zapcore.DPanicLevel -> dev = false).
Proof.
  unfold terminal.
  destruct (Z.eqb_spec lvl zapcore.PanicLevel) as [->|H1];
    [split; [done|by intros [? _]]|].
  destruct (Z.eqb_spec lvl zapcore.FatalLevel) as [->|H2];
    [split; [done|by intros (_ & ? & _)]|].
  destruct (Z.eqb_spec lvl zapcore.DPanicLevel) as [->|H3].
  - destruct dev; split; try done. intros (_ & _ & H). by specialize (H eq_refl).
  - split; [|done]. intros _. repeat split; done.
Qed.

(** [Context] attaches the facade it was given.  The clone with the
    raised caller skip is allocated and dropped. *)
Lemma Context_run ctx p z w :
  view w (log.LoggerPtr p) = Some z ->
  log.Context ctx (log.LoggerPtr p) w
  = Ret (context.WithValue ctx log.contextKeyLogger (context.anyLogger p))
      (set_zaps
         (fun h => (h ++ [zap.apply (zap.AddCallerSkip 1) z])%list) w).
Proof.
  intros Hv. destruct (view_inv _ _ _ Hv) as (q & Hp & Hz).
  unfold log.Context, zap.WithOptions, bind, deref. by rewrite Hp, Hz.
Qed.

Lemma Context_attached ctx p z w w' ctx' :
  view w (log.LoggerPtr p) = Some z ->
  log.Context ctx (log.LoggerPtr p) w = Ret ctx' w' ->
  log.getLogger ctx' w' = Ret (log.LoggerPtr p) w'
  /\ view w' (log.LoggerPtr p) = Some z.
Proof.
  intros Hv. rewrite (Context_run _ _ _ _ Hv). intros [= <- <-].
  split; [done|].
  eapply extends_view; [apply extends_alloc_zap|done].
Qed.

(** ** Strings *)

Section Strings.

Lemma append_nil_r (s : string) : s ++ "" = s.
Proof. induction s as [|a s IH]; simpl; [done|by rewrite IH]. Qed.

Lemma append_assoc (a b c : string) : (a ++ b) ++ c = a ++ b ++ c.
Proof. induction a as [|x a IH]; simpl; [done|by rewrite IH]. Qed.

Lemma append_eq_nil (a b : string) : a ++ b = "" -> a = "" /\ b = "".
Proof. destruct a; simpl; [done|discriminate]. Qed.

Lemma addFields_app c (fs gs : list zapcore.Field) :
  encoders.addFields c (fs ++ gs)%list
  = encoders.addFields c fs ++ encoders.addFields c gs.
Proof.
  induction fs as [|f fs IH]; [done|].
  cbn [encoders.addFields app]. by rewrite IH, append_assoc.
Qed.

Lemma Core_With_nil c : Core_With c [] = c.
Proof.
  induction c as [|enc l|inner IH h]; simpl; [done| |by rewrite IH].
  unfold encoders.With; simpl. rewrite append_nil_r. by destruct enc.
Qed.

Lemma Core_With_app c fs gs :
  Core_With (Core_With c fs) gs = Core_With c (fs ++ gs)%list.
Proof.
  induction c as [|enc l|inner IH h]; simpl; [done| |by rewrite IH].
  unfold encoders.With; simpl. by rewrite addFields_app, append_assoc.
Qed.

Lemma root_Core_With c fs : root (Core_With c fs) = Core_With (root c) fs.
Proof. by destruct c. Qed.

Lemma joinDots_nil_cons l : joinDots ("" :: l) = joinDots l.
Proof. reflexivity. Qed.

Lemma joinDots_cons s l :
  s <> "" ->
  joinDots (s :: l)
  = if String.eqb (joinDots l) "" then s else s ++ "." ++ joinDots l.
Proof.
  intros Hs. cbn [joinDots]. by rewrite (proj2 (String.eqb_neq s "") Hs).
Qed.

Lemma append_ne_nil (a b : string) : a <> "" -> a ++ b <> "".
Proof. intros Ha E. by apply append_eq_nil in E as [? _]. Qed.

Lemma nameStep_joinDots n s rest :
  joinDots (nameStep n s :: rest) = joinDots (n :: s :: rest).
Proof.
  unfold nameStep.
  destruct (String.eqb_spec s "") as [->|Hs].
  { destruct (String.eqb_spec n "") as [->|Hn].
    - by rewrite !joinDots_nil_cons.
    - by rewrite !(joinDots_cons n) by done. }
  destruct (String.eqb_spec n "") as [->|Hn].
  { by rewrite joinDots_nil_cons. }
  rewrite (joinDots_cons (n ++ "." ++ s)) by by apply append_ne_nil.
  rewrite (joinDots_cons n) by done.
  rewrite (joinDots_cons s) by done.
  destruct (String.eqb_spec (joinDots rest) "") as [Hr|Hr].
  - by rewrite (proj2 (String.eqb_neq s "") Hs).
  - rewrite (proj2 (String.eqb_neq (s ++ "." ++ joinDots rest) ""))
      by by apply append_ne_nil.
    by rewrite !append_assoc.
Qed.

Lemma fold_nameStep segs : forall n,
  fold_left nameStep segs n = joinDots (n :: segs).
Proof.
  induction segs as [|s segs IH]; intros n.
  - cbn [fold_left joinDots].
    destruct (String.eqb_spec n "") as [->|]; reflexivity.
  - cbn [fold_left]. rewrite IH. apply nameStep_joinDots.
Qed.

End Strings.

(** ** Chains of derivations *)

Section Chains.

(** The [zap.Logger] behind the facade at the end of a chain. *)
Lemma derive_spec ds : forall p z w,
  view w (log.LoggerPtr p) = Some z ->
  exists q w' z',
    derive ds (log.LoggerPtr p) w = Ret (log.LoggerPtr q) w'
    /\ extends w w'
    /\ view w' (log.LoggerPtr q) = Some z'
    /\ root (core z') = Core_With (root (core z)) (added ds)
    /\ name z' = fold_left nameStep (segments ds) (name z)
    /\ development z' = development z
    /\ addCaller z' = addCaller z
    /\ addStack z' = addStack z
    /\ callerSkip z' = callerSkip z.
Proof.
  induction ds as [|d ds IH]; intros p z w Hv.
  - exists p, w, z. simpl. rewrite Core_With_nil.
    split; [done|]. split; [apply extends_refl|]. repeat split; done.
  - destruct (derive1_spec d p z w Hv) as (q1 & w1 & R1 & _ & E1 & V1 & _).
    destruct (IH q1 _ w1 V1)
      as (q & w' & z' & R & E & V & Hroot & Hname & Hdev & Hac & Has & Hcs).
    exists q, w', z'. split.
    { simpl. by rewrite (bind_Ret _ _ _ _ _ R1). }
    split; [eapply extends_trans; eassumption|]. split; [exact V|].
    rewrite Hroot, Hname, Hdev, Hac, Has, Hcs.
    destruct d as [s|fs|lvl]; simpl.
    + unfold nameStep.
      destruct (String.eqb s ""); simpl; repeat split; done.
    + destruct fs as [|f fs]; simpl; [repeat split; done|].
      rewrite root_Core_With, Core_With_app. repeat split; done.
    + repeat split; done.
Qed.

Lemma getLogger_extends ctx w w' l :
  extends w w' ->
  log.getLogger ctx w = Ret l w -> log.getLogger ctx w' = Ret l w'.
Proof.
  intros E. unfold log.getLogger. rewrite (ext_default _ _ E).
  destruct (context.Value ctx log.contextKeyLogger);
    intros [= <-]; reflexivity.
Qed.

(** A derivation on a context is the derivation on the facade it
    carries, attached to a new context value. *)
Lemma derive_ctx1_run d ctx p w :
  log.getLogger ctx w = Ret (log.LoggerPtr p) w ->
  derive_ctx1 d ctx w
  = (do l <- derive1 d (log.LoggerPtr p);
     ret (context.WithValue ctx log.contextKeyLogger (log.toAny l))) w.
Proof.
  intros G.
  destruct d; simpl; unfold log.Named, log.With, log.WithLevel;
    by rewrite (bind_Ret _ _ _ _ _ G).
Qed.

End Chains.

(** ** Logging through the interface *)

Section Logging.

(** The seven logging methods of the interface are [Logger_log] at their
    level. *)
Lemma Logger_methods l msg fields stk :
  log.Logger_Debug l msg fields stk
  = Logger_log zapcore.DebugLevel l msg fields stk
  /\ log.Logger_Info l msg fields stk
     = Logger_log zapcore.InfoLevel l msg fields stk
  /\ log.Logger_Warn l msg fields stk
     = Logger_log zapcore.WarnLevel l msg fields stk
  /\ log.Logger_Error l msg fields stk
     = Logger_log zapcore.ErrorLevel l msg fields stk
  /\ log.Logger_DPanic l msg fields stk
     = Logger_log zapcore.DPanicLevel l msg fields stk
  /\ log.Logger_Panic l msg fields stk
     = Logger_log zapcore.PanicLevel l msg fields stk
  /\ log.Logger_Fatal l msg fields stk
     = Logger_log zapcore.FatalLevel l msg fields stk.
Proof. repeat split; reflexivity. Qed.

Lemma Logger_log_run lvl p z msg fields stk w :
  view w (log.LoggerPtr p) = Some z ->
  Logger_log lvl (log.LoggerPtr p) msg fields stk w
  = outcome (terminal (development z) lvl) msg
      (set_stderr (fun o => (o ++ emitted z w lvl msg fields stk)%list) w).
Proof.
  intros Hv. destruct (view_inv _ _ _ Hv) as (q & Hp & Hz).
  unfold Logger_log. rewrite (onLogger_run _ _ _ _ Hp).
  by apply logAt_run.
Qed.

Lemma written_root c ent fields :
  written c ent fields = written (root c) ent fields.
Proof. by destruct c. Qed.

Lemma set_stderr_nil w : set_stderr (fun o => (o ++ [])%list) w = w.
Proof. unfold set_stderr. rewrite app_nil_r. by destruct w. Qed.

(** A silent facade writes nothing, at any level. *)
Lemma silent_log lvl p msg fields stk w :
  silent w (log.LoggerPtr p) ->
  Logger_log lvl (log.LoggerPtr p) msg fields stk w
  = outcome (terminal false lvl) msg w.
Proof.
  intros (z & Hv & Hr & Hd). rewrite (Logger_log_run _ _ _ _ _ _ _ Hv).
  unfold emitted. rewrite written_root, Hr, Hd. simpl.
  destruct (Core_Enabled w (core z) lvl); by rewrite set_stderr_nil.
Qed.

Lemma derived_silent d fresh z :
  root (core z) = nopCore -> development z = false ->
  root (core (derived d fresh z)) = nopCore
  /\ development (derived d fresh z) = false.
Proof.
  intros Hr Hd. destruct d as [s|fs|lvl]; simpl.
  - by destruct (String.eqb s "").
  - destruct fs; [done|]. simpl. by rewrite root_Core_With, Hr.
  - done.
Qed.

Lemma derive_ctx_silent ds : forall ctx p w,
  log.getLogger ctx w = Ret (log.LoggerPtr p) w ->
  silent w (log.LoggerPtr p) ->
  exists ctx' w' q,
    derive_ctx ds ctx w = Ret ctx' w'
    /\ extends w w'
    /\ log.getLogger ctx' w' = Ret (log.LoggerPtr q) w'
    /\ silent w' (log.LoggerPtr q).
Proof.
  induction ds as [|d ds IH]; intros ctx p w G S.
  - exists ctx, w, p. repeat split; try done.
  - destruct S as (z & Hv & Hr & Hd).
    destruct (derive1_spec d p z w Hv) as (q1 & w1 & R1 & _ & E1 & V1 & _).
    destruct (derived_silent d (length (levels w)) z Hr Hd) as [Hr1 Hd1].
    destruct (IH (context.WithValue ctx log.contextKeyLogger
                    (context.anyLogger q1)) q1 w1)
      as (ctx' & w' & q & R & E & G' & S'); [done|by eexists|].
    exists ctx', w', q. split.
    { cbn [derive_ctx]. erewrite bind_Ret; [exact R|].
      rewrite (derive_ctx1_run _ _ _ _ G).
      by rewrite (bind_Ret _ _ _ _ _ R1). }
    split; [eapply extends_trans; eassumption|done].
Qed.

End Logging.

(** ** Names and lines *)

Section Lines.

Lemma joinDots_ne s l : s <> "" -> joinDots (s :: l) <> "".
Proof.
  intros Hs. rewrite joinDots_cons by done.
  destruct (String.eqb (joinDots l) ""); [done|by apply append_ne_nil].
Qed.

(** On non-empty segments the name is [strings.Join(segments, ".")]. *)
Lemma joinDots_concat ss :
  Forall (fun s => s <> "") ss -> joinDots ss = String.concat "." ss.
Proof.
  induction 1 as [|s ss Hs Hall IH]; [done|].
  rewrite joinDots_cons by done.
  destruct Hall as [|s' ss' Hs' Hall]; [done|].
  rewrite (proj2 (String.eqb_neq _ "") (joinDots_ne s' ss' Hs')).
  rewrite IH. reflexivity.
Qed.

(** The line of a facade whose core writes through the encoder [enc]. *)
Lemma emitted_line z enc l0 w lvl msg fields stk :
  root (core z) = ioCore enc l0 ->
  emitted z w lvl msg fields stk
  = if Core_Enabled w (core z) lvl
    then [encoders.EncodeEntry enc (entryFor z w lvl msg stk) fields]
    else [].
Proof. intros Hr. unfold emitted. by rewrite written_root, Hr. Qed.

End Lines.

(** ** Timestamps *)

Section Timestamps.

Lemma Format_app t l1 l2 :
  time.Format t (l1 ++ l2)%list = time.Format t l1 ++ time.Format t l2.
Proof.
  unfold time.Format. induction l1 as [|c l1 IH]; [done|].
  cbn [app fold_right]. by rewrite IH, append_assoc.
Qed.

Lemma pad_length n x : String.length (strconv.pad n x) = n.
Proof.
  revert x. induction n as [|n IH]; intros x; [done|].
  cbn [strconv.pad].
  assert (L : forall a b, String.length (a ++ b)
                          = (String.length a + String.length b)%nat).
  { intros a b. induction a as [|c a IHa]; simpl; [done|by rewrite IHa]. }
  rewrite L, IH. simpl. lia.
Qed.

End Timestamps.

(** ** The test suite

    The cases of [TestKeyValueLogger] that do not depend on the text of a
    stack trace, run on the model. *)

Section TestSuite.

Example test_named_logger :
  stderr (world_of (testCase zapcore.DebugLevel (fun l =>
    do ctx <- log.Context context.Background l;
    do ctx <- log.Named ctx "first_level";
    do_ log.Debug ctx "my Debug message" [] (testFrames 124);
    do ctx <- log.Named ctx "second_level";
    do_ log.Info ctx "my Info message" [] (testFrames 127);
    do ctx <- log.Named ctx "third_level";
    log.Warn ctx "my Warn message" [] (testFrames 130))))
  = withEndings
      [ts ++ "[level:debug][logger:first_level]"
          ++ "[caller:zapfmt/logger_test.go:124][msg:my Debug message]";
       ts ++ "[level:info][logger:first_level.second_level]"
          ++ "[caller:zapfmt/logger_test.go:127][msg:my Info message]";
       ts ++ "[level:warn][logger:first_level.second_level.third_level]"
          ++ "[caller:zapfmt/logger_test.go:130][msg:my Warn message]"].
Proof. vm_compute. reflexivity. Qed.

Example test_check_should_log :
  stderr (world_of (testCase zapcore.DebugLevel (fun l =>
    do ctx <- log.Context context.Background l;
    do ce <- log.Check ctx zapcore.DebugLevel "my Debug message"
               (testFrames 143);
    zap.writeIf ce [zap.String_ "foo" "bar"])))
  = withEndings
      [ts ++ "[level:debug][caller:zapfmt/logger_test.go:143]"
          ++ "[msg:my Debug message][foo:bar]"].
Proof. vm_compute. reflexivity. Qed.

Example test_check_should_not_log :
  stderr (world_of (testCase zapcore.InfoLevel (fun l =>
    do ctx <- log.Context context.Background l;
    do ce <- log.Check ctx zapcore.DebugLevel "my Debug message"
               (testFrames 156);
    zap.writeIf ce [zap.String_ "foo" "bar"])))
  = [].
Proof. vm_compute. reflexivity. Qed.

Example test_context_fields :
  stderr (world_of (testCase zapcore.DebugLevel (fun l =>
    do ctx <- log.Context context.Background l;
    do ctx <- log.With ctx
                [zap.String_ "string_key" "value";
                 zap.Time "time_key" (time.Unix 0 0);
                 zap.Int64 "int64_key" 1234;
                 zap.Float64 "float64_key" (float64_lit 12345678 10000);
                 zap.Error_ "my error";
                 zap.Duration "duration_key" (374 * time.Millisecond)];
    do_ log.Debug ctx "my Debug message" [zap.String_ "extra" "debug_extra"]
          (testFrames 199);
    log.Info ctx "my Info message" [zap.String_ "extra" "info_extra"]
      (testFrames 200))))
  = withEndings
      [ts ++ "[level:debug][caller:zapfmt/logger_test.go:199]"
          ++ "[msg:my Debug message][string_key:value]"
          ++ "[time_key:1970-01-01T00:00:00.000000Z][int64_key:1234]"
          ++ "[float64_key:1234.5678][error:my error][duration_key:0.374]"
          ++ "[extra:debug_extra]";
       ts ++ "[level:info][caller:zapfmt/logger_test.go:200]"
          ++ "[msg:my Info message][string_key:value]"
          ++ "[time_key:1970-01-01T00:00:00.000000Z][int64_key:1234]"
          ++ "[float64_key:1234.5678][error:my error][duration_key:0.374]"
          ++ "[extra:info_extra]"].
Proof. vm_compute. reflexivity. Qed.

Example test_change_levels :
  let quiet := [zap.String_ "log_level" "error"] in
  stderr (world_of (testCase zapcore.ErrorLevel (fun l =>
    do ctx1 <- log.Context context.Background l;
    do_ log.Debug ctx1 "should not appear" quiet (testFrames 255);
    do_ log.Info ctx1 "should not appear" quiet (testFrames 256);
    do ctx2 <- log.WithLevel ctx1 zapcore.InfoLevel;
    do_ log.Debug ctx1 "should not appear" quiet (testFrames 260);
    do_ log.Info ctx1 "should not appear" quiet (testFrames 261);
    do_ log.Debug ctx2 "should not appear" [zap.String_ "log_level" "info"]
          (testFrames 264);
    do_ log.Info ctx2 "should appear" [zap.String_ "log_level" "info"]
          (testFrames 265);
    do ctx3 <- log.WithLevel ctx2 zapcore.DebugLevel;
    do_ log.Debug ctx1 "should not appear" quiet (testFrames 269);
    do_ log.Info ctx1 "should not appear" quiet (testFrames 270);
    do_ log.Debug ctx2 "should not appear" [zap.String_ "log_level" "info"]
          (testFrames 271);
    do_ log.Debug ctx3 "should appear" [zap.String_ "log_level" "debug"]
          (testFrames 274);
    log.Info ctx3 "should appear" [zap.String_ "log_level" "debug"]
      (testFrames 275))))
  = withEndings
      [ts ++ "[level:info][caller:zapfmt/logger_test.go:265]"
          ++ "[msg:should appear][log_level:info]";
       ts ++ "[level:debug][caller:zapfmt/logger_test.go:274]"
          ++ "[msg:should appear][log_level:debug]";
       ts ++ "[level:info][caller:zapfmt/logger_test.go:275]"
          ++ "[msg:should appear][log_level:debug]"].
Proof. vm_compute. reflexivity. Qed.

Example test_panic_levels :
  let r := testCase zapcore.DebugLevel (fun l =>
             do ctx <- log.Context context.Background l;
             log.Panic ctx "my Panic message" [] (testFrames 218)) in
  (exists w, r = Abort (GoPanic "my Panic message") w)
  /\ length (stderr (world_of r)) = 1%nat.
Proof.
  split; [|vm_compute; reflexivity].
  eexists. unfold testCase. reflexivity.
Qed.

End TestSuite.

(** ** The claims *)

(** C1.  Level freezing independence: let the facade [p] read its level
    from the shared holder [H].  [WithLevel lvl] binds the child [A] to a
    holder that did not exist before, initialised to [lvl]; [Named s]
    leaves the sibling [B] on [H].  After any later writes to [H], the
    threshold of [A] is still [lvl], while the threshold of [B] is the
    value written last (the value of [H], if nothing was written). *)
Theorem WithLevel_freezes_level (p : loc) (z : zap_Logger) (inner : Core)
    (H : loc) (cur lvl : zapcore.Level) (s : string) (w : World) :
  view w (log.LoggerPtr p) = Some z ->
  core z = coreWithLevel inner H ->
  levels w !! H = Some cur ->
  exists A B w2 zA zB,
    (do a <- log.logger_WithLevel p lvl;
     do b <- log.logger_Named p s;
     ret (a, b)) w = Ret (A, B) w2
    /\ view w2 A = Some zA /\ view w2 B = Some zB
    /\ holder (core zA) = Some (length (levels w))
    /\ levels w !! length (levels w) = None
    /\ levels w2 !! length (levels w) = Some lvl
    /\ holder (core zB) = Some H
    /\ forall vs : list zapcore.Level,
         let w3 := writes H vs w2 in
         let last_written := default cur (last vs) in
         threshold w3 A = Some lvl
         /\ threshold w3 B = Some last_written
         /\ forall l,
              enabled w3 A l = zapcore.Level_Enabled lvl l
              /\ enabled w3 B l = zapcore.Level_Enabled last_written l.
Proof.
  intros Hv Hc HH.
  destruct (derive1_spec (DWithLevel lvl) p z w Hv)
    as (qa & w1 & Ra & _ & E1 & Va & L1).
  pose proof (extends_view _ _ _ _ E1 Hv) as Hv1.
  destruct (derive1_spec (DNamed s) p z w1 Hv1)
    as (qb & w2 & Rb & _ & E2 & Vb & L2).
  pose proof (extends_view _ _ _ _ E2 Va) as Va2.
  simpl in Ra, Rb.
  assert (HcB : core (derived (DNamed s) (length (levels w1)) z)
                = coreWithLevel inner H).
  { simpl. by destruct (String.eqb s ""). }
  assert (Hfresh : length (levels w) <> H).
  { apply lookup_lt_Some in HH. lia. }
  assert (Hl2 : levels w2 = (levels w ++ [lvl])%list) by congruence.
  exists (log.LoggerPtr qa), (log.LoggerPtr qb), w2,
    (derived (DWithLevel lvl) (length (levels w)) z),
    (derived (DNamed s) (length (levels w1)) z).
  split.
  { rewrite (bind_Ret _ _ _ _ _ Ra), (bind_Ret _ _ _ _ _ Rb). done. }
  split; [exact Va2|]. split; [exact Vb|].
  split; [done|].
  split; [apply lookup_ge_None; lia|].
  split; [rewrite Hl2; apply lookup_fresh|].
  split; [by rewrite HcB|].
  intros vs w3 last_written.
  assert (HH2 : levels w2 !! H = Some cur).
  { eapply extends_level; [|exact HH]. eapply extends_trans; eassumption. }
  destruct (writes_spec H vs w2 cur HH2) as (Hz & Hl & _ & Hh & Hother).
  fold w3 in Hz, Hl, Hh, Hother.
  assert (VA3 : view w3 (log.LoggerPtr qa) = view w2 (log.LoggerPtr qa)).
  { unfold view. by rewrite Hz, Hl. }
  assert (VB3 : view w3 (log.LoggerPtr qb) = view w2 (log.LoggerPtr qb)).
  { unfold view. by rewrite Hz, Hl. }
  assert (HA : levels w3 !! length (levels w) = Some lvl).
  { rewrite Hother by done. rewrite Hl2. apply lookup_fresh. }
  unfold threshold, enabled. rewrite VA3, VB3, Va2, Vb, HcB.
  simpl. rewrite HA, Hh. done.
Qed.

Lemma WithLevel_freezes_level_witness :
  exists A B w2,
    (do a <- log.logger_WithLevel 1%nat zapcore.InfoLevel;
     do b <- log.logger_Named 1%nat "b";
     ret (a, b)) (world_of (production zapcore.ErrorLevel)) = Ret (A, B) w2
    /\ threshold (writes O [zapcore.DebugLevel] w2) A
       = Some zapcore.InfoLevel
    /\ threshold (writes O [zapcore.DebugLevel] w2) B
       = Some zapcore.DebugLevel.
Proof.
  destruct (WithLevel_freezes_level 1%nat
              (mkLogger
                 (coreWithLevel (log.newZapCoreAtLevel zapcore.DebugLevel) O)
                 false "" true zapcore.ErrorLevel 1)
              (log.newZapCoreAtLevel zapcore.DebugLevel) O
              zapcore.ErrorLevel zapcore.InfoLevel "b"
              (world_of (production zapcore.ErrorLevel)))
    as (A & B & w2 & zA & zB & R & _ & _ & _ & _ & _ & _ & Hw);
    [reflexivity | reflexivity | reflexivity |].
  exists A, B, w2. split; [exact R|].
  destruct (Hw [zapcore.DebugLevel]) as (HA & HB & _).
  split; [exact HA | exact HB].
Defined.

(** C2, at a production logger used from a handler called by [main].
    After [Context], the facade in the context is the one that was given,
    its caller skip still 1.  A call on the facade reports the caller of
    the handler; the same call through the free function reports the
    handler: the two differ, where the claim has them agree. *)
Theorem Context_keeps_caller_skip :
  let w := world_of (production zapcore.DebugLevel) in
  let f := log.LoggerPtr 1%nat in
  let stk :=
    [runtime.mkFrame "main.greet" "/go/src/zapfmt/examples/webserver/main.go"
       17;
     runtime.mkFrame "main.main" "/go/src/zapfmt/examples/webserver/main.go"
       73] in
  exists ctx w',
    log.Context context.Background f w = Ret ctx w'
    /\ log.getLogger ctx w' = Ret f w'
    /\ (callerSkip <$> view w f) = Some 1
    /\ (callerSkip <$> view w' f) = Some 1
    /\ stderr (world_of (log.Logger_Debug f "m" [] stk w'))
       = ["[ts:1970-01-01T00:00:00.000000Z][level:debug]"
            ++ "[caller:webserver/main.go:73][msg:m]"
            ++ zapcore.DefaultLineEnding]
    /\ stderr (world_of (log.Debug ctx "m" [] stk w'))
       = ["[ts:1970-01-01T00:00:00.000000Z][level:debug]"
            ++ "[caller:webserver/main.go:17][msg:m]"
            ++ zapcore.DefaultLineEnding].
Proof.
  intros w f stk.
  eexists _, _. split.
  { apply (Context_run context.Background 1%nat
             (mkLogger
                (coreWithLevel (log.newZapCoreAtLevel zapcore.DebugLevel) O)
                false "" true zapcore.ErrorLevel 1)).
    reflexivity. }
  split; [reflexivity|]. split; [reflexivity|]. split; [reflexivity|].
  split; vm_compute; reflexivity.
Qed.

(** C3.  Fallback resolution is total: in a context in which no value was
    ever stored under the package's key, [getLogger] returns the
    process-wide [DefaultLogger], without fault, and each free function of
    [context.go] is the call of the method on the [DefaultLogger]. *)
Theorem getLogger_fallback (ctx : context.Context) (w : World) :
  never_attached ctx = true ->
  let D := log.LoggerPtr (DefaultLogger w) in
  let attach l := ret (context.WithValue ctx log.contextKeyLogger (log.toAny l)) in
  log.getLogger ctx w = Ret D w
  /\ log.Sugar ctx w = log.Logger_Sugar D w
  /\ (forall s, log.Named ctx s w = bind (log.Logger_Named D s) attach w)
  /\ (forall fs, log.With ctx fs w = bind (log.Logger_With D fs) attach w)
  /\ (forall lvl,
        log.WithLevel ctx lvl w = bind (log.Logger_WithLevel D lvl) attach w)
  /\ (forall lvl msg stk,
        log.Check ctx lvl msg stk w
        = log.Logger_Check D lvl msg (log.frame "Check" 61 :: stk) w)
  /\ (forall msg fs stk,
        log.Debug ctx msg fs stk w
        = log.Logger_Debug D msg fs (log.frame "Debug" 77 :: stk) w
        /\ log.Info ctx msg fs stk w
           = log.Logger_Info D msg fs (log.frame "Info" 98 :: stk) w
        /\ log.Warn ctx msg fs stk w
           = log.Logger_Warn D msg fs (log.frame "Warn" 112 :: stk) w
        /\ log.Error ctx msg fs stk w
           = log.Logger_Error D msg fs (log.frame "Error" 83 :: stk) w
        /\ log.DPanic ctx msg fs stk w
           = log.Logger_DPanic D msg fs (log.frame "DPanic" 71 :: stk) w
        /\ log.Panic ctx msg fs stk w
           = log.Logger_Panic D msg fs (log.frame "Panic" 106 :: stk) w
        /\ log.Fatal ctx msg fs stk w
           = log.Logger_Fatal D msg fs (log.frame "Fatal" 92 :: stk) w).
Proof.
  intros Hn D attach.
  assert (G : log.getLogger ctx w = Ret D w).
  { unfold log.getLogger. by rewrite (getLogger_default ctx Hn). }
  split; [exact G|].
  unfold log.Sugar, log.Named, log.With, log.WithLevel, log.Check,
    log.Debug, log.Info, log.Warn, log.Error, log.DPanic, log.Panic,
    log.Fatal.
  repeat split; intros; by rewrite (bind_Ret _ _ _ _ _ G).
Qed.

Lemma getLogger_fallback_witness :
  let ctx := context.WithValue context.Background (context.foreignKey 7)
               (context.anyOther 3) in
  let w := log.start (time.Unix 0 0) in
  never_attached ctx = true
  /\ log.getLogger ctx w = Ret (log.LoggerPtr (DefaultLogger w)) w.
Proof.
  split; [reflexivity|].
  apply (getLogger_fallback
           (context.WithValue context.Background (context.foreignKey 7)
              (context.anyOther 3))
           (log.start (time.Unix 0 0))).
  reflexivity.
Defined.

(** C4, as the code has it.  [Check] changes nothing and returns an entry
    that will write, holding the facade's core, exactly when the level
    meets the threshold.  Below the threshold it returns no entry for the
    levels that end normally; at [PanicLevel] and [FatalLevel] (and at
    [DPanicLevel] in development mode) it returns an entry without cores,
    which writes nothing and only carries the panic or the exit.  In
    either case no line is produced below the threshold. *)
Theorem Check_gating (p : loc) (z : zap_Logger) (lvl : zapcore.Level)
    (msg : string) (stk : list runtime.Frame) (w : World) :
  view w (log.LoggerPtr p) = Some z ->
  exists r,
    log.Logger_Check (log.LoggerPtr p) lvl msg stk w = Ret r w
    /\ (enabled w (log.LoggerPtr p) lvl = true ->
        exists ce, r = Some ce /\ cores ce = [core z])
    /\ (enabled w (log.LoggerPtr p) lvl = false ->
        (r = None <->
           lvl <> zapcore.PanicLevel /\ lvl <> zapcore.FatalLevel
           /\ (lvl = zapcore.DPanicLevel -> development z = false))
        /\ (forall ce, r = Some ce ->
              cores ce = [] /\ should ce = terminal (development z) lvl)
        /\ forall fields,
             stderr (world_of (zap.writeIf r fields w)) = stderr w)
    /\ forall ctx,
         log.getLogger ctx w = Ret (log.LoggerPtr p) w ->
         log.Check ctx lvl msg stk w
         = log.Logger_Check (log.LoggerPtr p) lvl msg
             (log.frame "Check" 61 :: stk) w.
Proof.
  intros Hv. unfold enabled. rewrite Hv.
  rewrite (Logger_Check_run _ _ _ _ _ _ Hv).
  eexists. split; [reflexivity|].
  destruct (Core_Enabled w (core z) lvl) eqn:He.
  - split; [eauto|]. split; [done|].
    intros ctx G. unfold log.Check. by rewrite (bind_Ret _ _ _ _ _ G).
  - split; [done|]. split.
    + intros _. rewrite <- terminal_Noop.
      destruct (terminal (development z) lvl) eqn:Ht; simpl.
      * repeat split; try done.
      * repeat split; try done; by injection H as <-.
      * repeat split; try done; by injection H as <-.
    + intros ctx G. unfold log.Check. by rewrite (bind_Ret _ _ _ _ _ G).
Qed.

Lemma Check_gating_witness :
  let w := world_of (production zapcore.InfoLevel) in
  exists r,
    log.Logger_Check (log.LoggerPtr 1%nat) zapcore.DebugLevel "m" [] w
    = Ret r w.
Proof.
  destruct (Check_gating 1%nat
              (mkLogger
                 (coreWithLevel (log.newZapCoreAtLevel zapcore.DebugLevel) O)
                 false "" true zapcore.ErrorLevel 1)
              zapcore.DebugLevel "m" []
              (world_of (production zapcore.InfoLevel)))
    as (r & R & _); [reflexivity|].
  exists r. exact R.
Defined.

(** C4, as stated, fails: with the threshold at [FatalLevel], [PanicLevel]
    is below the threshold and [Check] still returns an entry. *)
Lemma Check_handle_below_threshold :
  let w := world_of (production zapcore.FatalLevel) in
  let f := log.LoggerPtr 1%nat in
  threshold w f = Some zapcore.FatalLevel
  /\ enabled w f zapcore.PanicLevel = false
  /\ exists ce,
       log.Logger_Check f zapcore.PanicLevel "m" [] w = Ret (Some ce) w
       /\ zap.writeIf (Some ce) [] w = Abort (GoPanic "m") w.
Proof.
  split; [reflexivity|]. split; [reflexivity|].
  eexists. split; reflexivity.
Qed.

(** C5.  Field ordering: let the facade [p] write through an encoder that
    already holds the rendered fields [buf enc] of its ancestors.  After
    any chain of derivations, a record written at any enabled level is
    the line: header, then the inherited fields, then the fields the
    [With] derivations of the chain added, in the order of the chain,
    then the fields of the call site in argument order, then the
    trailer.  Each field is one [[key:value]] segment. *)
Theorem fields_in_accumulation_order (ds : list Deriv) (p : loc)
    (z : zap_Logger) (enc : encoders.keyValueEncoder) (l0 : zapcore.Level)
    (w : World) :
  view w (log.LoggerPtr p) = Some z ->
  root (core z) = ioCore enc l0 ->
  exists q w' z',
    derive ds (log.LoggerPtr p) w = Ret (log.LoggerPtr q) w'
    /\ view w' (log.LoggerPtr q) = Some z'
    /\ forall lvl msg fields stk,
         let ent := entryFor z' w' lvl msg stk in
         let line :=
           encoders.header (encoders.cfg enc) ent
             ++ encoders.buf enc
             ++ encoders.addFields (encoders.cfg enc)
                  (added ds ++ fields)%list
             ++ encoders.trailer (encoders.cfg enc) ent in
         Logger_log lvl (log.LoggerPtr q) msg fields stk w'
         = outcome (terminal (development z') lvl) msg
             (set_stderr
                (fun o =>
                   (o ++ if enabled w' (log.LoggerPtr q) lvl
                         then [line] else [])%list) w').
Proof.
  intros Hv Hr.
  destruct (derive_spec ds p z w Hv)
    as (q & w' & z' & R & _ & V & Hroot & _).
  exists q, w', z'. split; [exact R|]. split; [exact V|].
  intros lvl msg fields stk ent line.
  rewrite (Logger_log_run _ _ _ _ _ _ _ V).
  rewrite Hr in Hroot. simpl in Hroot.
  rewrite (emitted_line _ _ _ _ _ _ _ _ Hroot).
  unfold enabled. rewrite V.
  destruct (Core_Enabled w' (core z') lvl); [|done].
  assert (Hline :
    encoders.EncodeEntry (encoders.With enc (added ds)) ent fields = line).
  { subst line. unfold encoders.EncodeEntry, encoders.With.
    cbn [encoders.cfg encoders.buf].
    by rewrite addFields_app, !append_assoc. }
  fold ent. by rewrite Hline.
Qed.

Lemma fields_in_accumulation_order_witness :
  exists q w' z',
    derive [DWith [zap.String_ "a" "1"]; DNamed "n"; DWith [zap.String_ "b" "2"]]
      (log.LoggerPtr 1%nat) (world_of (production zapcore.DebugLevel))
    = Ret (log.LoggerPtr q) w'
    /\ view w' (log.LoggerPtr q) = Some z'.
Proof.
  destruct (fields_in_accumulation_order
              [DWith [zap.String_ "a" "1"]; DNamed "n";
               DWith [zap.String_ "b" "2"]]
              1%nat
              (mkLogger
                 (coreWithLevel (log.newZapCoreAtLevel zapcore.DebugLevel) O)
                 false "" true zapcore.ErrorLevel 1)
              (encoders.NewKeyValueEncoder log.encoderConfig)
              zapcore.DebugLevel
              (world_of (production zapcore.DebugLevel)))
    as (q & w' & z' & R & V & _); [reflexivity | reflexivity |].
  exists q, w', z'. split; [exact R | exact V].
Defined.

(** C6.  Logger naming: after any chain of derivations the name is the
    name of the parent and the segments of the [Named] derivations, in
    order, joined with ["."], where an empty name (of the parent, or an
    empty segment) contributes neither segment nor separator; for an
    unnamed parent and non-empty segments this is [strings.Join(segments,
    ".")].  A record written through the configured encoder has the
    segment [[logger:<name>]] between the level and the caller if the name
    is not empty, and no logger segment at all if it is. *)
Theorem Named_joins_segments (ds : list Deriv) (p : loc) (z : zap_Logger)
    (enc : encoders.keyValueEncoder) (l0 : zapcore.Level) (w : World) :
  view w (log.LoggerPtr p) = Some z ->
  root (core z) = ioCore enc l0 ->
  encoders.cfg enc = log.encoderConfig ->
  exists q w' z',
    derive ds (log.LoggerPtr p) w = Ret (log.LoggerPtr q) w'
    /\ view w' (log.LoggerPtr q) = Some z'
    /\ name z' = joinDots (name z :: segments ds)
    /\ (name z = "" -> Forall (fun s => s <> "") (segments ds) ->
        name z' = String.concat "." (segments ds))
    /\ forall lvl msg fields stk,
         enabled w' (log.LoggerPtr q) lvl = true ->
         exists rest,
           let line :=
             "[ts:" ++ time.Format (time.UTC (now w')) log.RFC3339Micro
               ++ "][level:" ++ zapcore.Level_String lvl ++ "]"
               ++ (if String.eqb (name z') "" then ""
                   else "[logger:" ++ name z' ++ "]")
               ++ "[caller:"
               ++ zapcore.TrimmedPath
                    (zapcore.Caller (entryFor z' w' lvl msg stk))
               ++ "][msg:" ++ msg ++ "]" ++ rest in
           Logger_log lvl (log.LoggerPtr q) msg fields stk w'
           = outcome (terminal (development z') lvl) msg
               (set_stderr (fun o => (o ++ [line])%list) w').
Proof.
  intros Hv Hr Hcfg.
  destruct (derive_spec ds p z w Hv)
    as (q & w' & z' & R & _ & V & Hroot & Hname & _).
  exists q, w', z'. split; [exact R|]. split; [exact V|].
  rewrite fold_nameStep in Hname.
  split; [exact Hname|]. split.
  { intros Hz Hall. rewrite Hname, Hz, joinDots_nil_cons.
    by apply joinDots_concat. }
  intros lvl msg fields stk He.
  rewrite (Logger_log_run _ _ _ _ _ _ _ V).
  rewrite Hr in Hroot. simpl in Hroot.
  rewrite (emitted_line _ _ _ _ _ _ _ _ Hroot).
  unfold enabled in He. rewrite V in He. rewrite He.
  eexists.
  unfold encoders.EncodeEntry, encoders.header, encoders.segment.
  cbn [encoders.With encoders.cfg encoders.buf].
  rewrite Hcfg.
  cbn [log.encoderConfig zapcore.TimeKey zapcore.LevelKey zapcore.NameKey
       zapcore.CallerKey zapcore.MessageKey zapcore.EncodeTime
       zapcore.EncodeLevel zapcore.EncodeCaller encoders.appendPrim
       log.rfc3399NanoTimeEncoder zapcore.LowercaseLevelEncoder
       zapcore.ShortCallerEncoder entryFor zapcore.Time_ zapcore.Level_
       zapcore.LoggerName zapcore.Message zapcore.Caller].
  destruct (String.eqb (name z') "");
    rewrite ?append_assoc; cbn [append]; rewrite ?append_assoc;
    cbn [append]; reflexivity.
Qed.

Lemma Named_joins_segments_witness :
  exists q w' z',
    derive [DNamed "a"; DNamed "b"; DNamed "c"] (log.LoggerPtr 1%nat)
      (world_of (production zapcore.DebugLevel))
    = Ret (log.LoggerPtr q) w'
    /\ view w' (log.LoggerPtr q) = Some z'
    /\ name z' = "a.b.c".
Proof.
  destruct (Named_joins_segments
              [DNamed "a"; DNamed "b"; DNamed "c"] 1%nat
              (mkLogger
                 (coreWithLevel (log.newZapCoreAtLevel zapcore.DebugLevel) O)
                 false "" true zapcore.ErrorLevel 1)
              (encoders.NewKeyValueEncoder log.encoderConfig)
              zapcore.DebugLevel
              (world_of (production zapcore.DebugLevel)))
    as (q & w' & z' & R & V & N & _);
    [reflexivity | reflexivity | reflexivity |].
  exists q, w', z'. split; [exact R|]. split; [exact V | exact N].
Defined.

(** C7.  Field value rendering: a duration field of 374 milliseconds is
    rendered [0.374] and a time field at the Unix epoch
    [1970-01-01T00:00:00.000000Z].  Every time, of a field or of the
    record, is rendered by [rfc3399NanoTimeEncoder]: in UTC, whatever the
    zone of the value, as date and time of day followed by ["."], the six
    digits of the microseconds and ["Z"]. *)
Theorem field_value_rendering :
  encoders.fieldValue log.encoderConfig
    (zapcore.DurationType (374 * time.Millisecond)) = "0.374"
  /\ encoders.fieldValue log.encoderConfig (zapcore.TimeType (time.Unix 0 0))
     = "1970-01-01T00:00:00.000000Z"
  /\ (forall t,
        encoders.fieldValue log.encoderConfig (zapcore.TimeType t)
        = encoders.appendPrim (log.rfc3399NanoTimeEncoder t))
  /\ (forall ent,
        exists rest,
          encoders.header log.encoderConfig ent
          = "[ts:"
              ++ encoders.appendPrim
                   (log.rfc3399NanoTimeEncoder (zapcore.Time_ ent))
              ++ "]" ++ rest)
  /\ forall t,
       let micros := strconv.pad 6 (time.nsec t / 1000) in
       encoders.appendPrim (log.rfc3399NanoTimeEncoder t)
       = time.Format (time.mkTime (time.sec t) (time.nsec t) 0)
           RFC3339Seconds
           ++ "." ++ micros ++ "Z"
       /\ String.length micros = 6%nat.
Proof.
  split; [vm_compute; reflexivity|].
  split; [vm_compute; reflexivity|].
  split; [reflexivity|].
  split.
  { intros ent. eexists. unfold encoders.header, encoders.segment.
    cbn [log.encoderConfig zapcore.TimeKey zapcore.EncodeTime].
    rewrite ?append_assoc. cbn [append]. rewrite ?append_assoc.
    cbn [append]. reflexivity. }
  intros t micros. split; [|apply pad_length].
  unfold log.rfc3399NanoTimeEncoder. cbn [encoders.appendPrim].
  change log.RFC3339Micro
    with (RFC3339Seconds
            ++ [time.stdFracSecond0 6; time.stdISO8601ColonTZ])%list.
  rewrite Format_app. unfold time.UTC. f_equal.
Qed.

(** C8.  Fatal termination: on every facade and at every threshold,
    [Fatal] ends in [os.Exit(1)], after the record was written if the
    level is enabled and with nothing written if it is not; the same holds
    for the free function [Fatal] on a context that carries the facade. *)
Theorem Fatal_exits (p : loc) (z : zap_Logger) (msg : string)
    (fields : list zapcore.Field) (stk : list runtime.Frame) (w : World) :
  view w (log.LoggerPtr p) = Some z ->
  log.Logger_Fatal (log.LoggerPtr p) msg fields stk w
  = Abort (Exit 1)
      (set_stderr
         (fun o => (o ++ emitted z w zapcore.FatalLevel msg fields stk)%list)
         w)
  /\ (enabled w (log.LoggerPtr p) zapcore.FatalLevel = false ->
      emitted z w zapcore.FatalLevel msg fields stk = [])
  /\ forall ctx,
       log.getLogger ctx w = Ret (log.LoggerPtr p) w ->
       log.Fatal ctx msg fields stk w
       = Abort (Exit 1)
           (set_stderr
              (fun o => (o ++ emitted z w zapcore.FatalLevel msg fields
                                (log.frame "Fatal" 92 :: stk))%list) w).
Proof.
  intros Hv. destruct (view_inv _ _ _ Hv) as (q & Hp & Hz).
  assert (F : forall stk',
    log.Logger_Fatal (log.LoggerPtr p) msg fields stk' w
    = Abort (Exit 1)
        (set_stderr
           (fun o => (o ++ emitted z w zapcore.FatalLevel msg fields
                             stk')%list) w)).
  { intros stk'. unfold log.Logger_Fatal. rewrite (onLogger_run _ _ _ _ Hp).
    change (zap.Fatal q msg fields stk')
      with (logAt zapcore.FatalLevel q msg fields stk').
    by rewrite (logAt_run _ _ _ _ _ _ _ Hz). }
  split; [apply F|]. split.
  - unfold enabled, emitted. rewrite Hv. by intros ->.
  - intros ctx G. unfold log.Fatal. rewrite (bind_Ret _ _ _ _ _ G). apply F.
Qed.

Lemma Fatal_exits_witness :
  let w := world_of (production zapcore.FatalLevel) in
  exists w',
    log.Logger_Fatal (log.LoggerPtr 1%nat) "m" [] [] w = Abort (Exit 1) w'.
Proof.
  eexists.
  apply (Fatal_exits 1%nat
           (mkLogger
              (coreWithLevel (log.newZapCoreAtLevel zapcore.DebugLevel) O)
              false "" true zapcore.ErrorLevel 1)
           "m" [] [] (world_of (production zapcore.FatalLevel))).
  reflexivity.
Defined.

(** C9.  Derivation purity: [Named], [With] and [WithLevel], on a facade
    and on a context, return a new facade (at an address that was free)
    and only allocate: every cell of the heaps keeps its content and
    nothing is written.  Afterwards the original context still yields the
    previous facade, which stands for the same [zap.Logger], with its
    fields, name and level holder, and decides as before. *)
Theorem derivation_leaves_parent (d : Deriv) (ctx : context.Context)
    (p : loc) (z : zap_Logger) (w : World) :
  log.getLogger ctx w = Ret (log.LoggerPtr p) w ->
  view w (log.LoggerPtr p) = Some z ->
  core_ok w (core z) ->
  exists q w',
    derive1 d (log.LoggerPtr p) w = Ret (log.LoggerPtr q) w'
    /\ derive_ctx1 d ctx w
       = Ret (context.WithValue ctx log.contextKeyLogger
                (context.anyLogger q)) w'
    /\ loggers w !! q = None
    /\ extends w w'
    /\ log.getLogger ctx w' = Ret (log.LoggerPtr p) w'
    /\ view w' (log.LoggerPtr p) = Some z
    /\ threshold w' (log.LoggerPtr p) = threshold w (log.LoggerPtr p)
    /\ forall lvl,
         enabled w' (log.LoggerPtr p) lvl = enabled w (log.LoggerPtr p) lvl.
Proof.
  intros G Hv Hok.
  destruct (derive1_spec d p z w Hv) as (q & w' & R & Hq & E & V & _).
  exists q, w'. split; [exact R|]. split.
  { rewrite (derive_ctx1_run _ _ _ _ G). by rewrite (bind_Ret _ _ _ _ _ R). }
  split; [subst q; by apply lookup_ge_None|].
  split; [exact E|].
  split; [by apply (getLogger_extends _ _ _ _ E)|].
  pose proof (extends_view _ _ _ _ E Hv) as Hv'.
  split; [exact Hv'|]. split.
  - unfold threshold. rewrite Hv, Hv'.
    unfold core_ok in Hok. destruct (holder (core z)) as [h|]; [|done].
    destruct Hok as [l Hl]. by rewrite Hl, (extends_level _ _ _ _ E Hl).
  - intros lvl. unfold enabled. rewrite Hv, Hv'.
    by apply extends_enabled.
Qed.

Lemma derivation_leaves_parent_witness :
  let w := world_of (production zapcore.ErrorLevel) in
  let ctx := context.WithValue context.Background log.contextKeyLogger
               (context.anyLogger 1%nat) in
  exists q w',
    log.logger_WithLevel 1%nat zapcore.DebugLevel w
    = Ret (log.LoggerPtr q) w'
    /\ log.getLogger ctx w' = Ret (log.LoggerPtr 1%nat) w'
    /\ threshold w' (log.LoggerPtr 1%nat) = Some zapcore.ErrorLevel.
Proof.
  destruct (derivation_leaves_parent (DWithLevel zapcore.DebugLevel)
              (context.WithValue context.Background log.contextKeyLogger
                 (context.anyLogger 1%nat))
              1%nat
              (mkLogger
                 (coreWithLevel (log.newZapCoreAtLevel zapcore.DebugLevel) O)
                 false "" true zapcore.ErrorLevel 1)
              (world_of (production zapcore.ErrorLevel)))
    as (q & w' & R & _ & _ & _ & G & _ & T & _);
    [reflexivity | reflexivity | by eexists |].
  exists q, w'. split; [exact R|]. split; [exact G|].
  rewrite T. reflexivity.
Defined.

(** C10.  A context in which no facade was ever attached, while the
    [DefaultLogger] is the no-op logger: any chain of [Named], [With] and
    [WithLevel] on it returns normally, without writing, and yields a
    context whose facade is still silent.  Through that context [Debug],
    [Info], [Warn], [Error] and [DPanic] return and leave the process as
    it was; [Panic] and [Fatal] end in their panic and exit, also with
    nothing written; an entry returned by [Check] writes no line. *)
Theorem default_derivations_stay_silent (ctx : context.Context)
    (ds : list Deriv) (w : World) :
  never_attached ctx = true ->
  silent w (log.LoggerPtr (DefaultLogger w)) ->
  exists ctx' w',
    derive_ctx ds ctx w = Ret ctx' w'
    /\ extends w w'
    /\ stderr w' = stderr w
    /\ forall msg fields stk,
         log.Debug ctx' msg fields stk w' = Ret tt w'
         /\ log.Info ctx' msg fields stk w' = Ret tt w'
         /\ log.Warn ctx' msg fields stk w' = Ret tt w'
         /\ log.Error ctx' msg fields stk w' = Ret tt w'
         /\ log.DPanic ctx' msg fields stk w' = Ret tt w'
         /\ log.Panic ctx' msg fields stk w' = Abort (GoPanic msg) w'
         /\ log.Fatal ctx' msg fields stk w' = Abort (Exit 1) w'
         /\ forall lvl r,
              log.Check ctx' lvl msg stk w' = Ret r w' ->
              stderr (world_of (zap.writeIf r fields w')) = stderr w'.
Proof.
  intros Hn S.
  assert (G : log.getLogger ctx w
              = Ret (log.LoggerPtr (DefaultLogger w)) w).
  { unfold log.getLogger. by rewrite (getLogger_default ctx Hn). }
  destruct (derive_ctx_silent ds ctx _ w G S) as (ctx' & w' & q & R & E & G' & S').
  exists ctx', w'. split; [exact R|]. split; [exact E|].
  split; [apply (ext_stderr _ _ E)|].
  intros msg fields stk.
  assert (L : forall lvl s,
            Logger_log lvl (log.LoggerPtr q) msg fields s w'
            = outcome (terminal false lvl) msg w')
    by (intros; by apply silent_log).
  unfold log.Debug, log.Info, log.Warn, log.Error, log.DPanic, log.Panic,
    log.Fatal, log.Check.
  rewrite !(bind_Ret _ _ _ _ _ G').
  split; [exact (L zapcore.DebugLevel _)|].
  split; [exact (L zapcore.InfoLevel _)|].
  split; [exact (L zapcore.WarnLevel _)|].
  split; [exact (L zapcore.ErrorLevel _)|].
  split; [exact (L zapcore.DPanicLevel _)|].
  split; [exact (L zapcore.PanicLevel _)|].
  split; [exact (L zapcore.FatalLevel _)|].
  intros lvl r HC. rewrite (bind_Ret _ _ _ _ _ G') in HC.
  destruct S' as (z & Hv & Hr & Hd).
  rewrite (Logger_Check_run _ _ _ _ _ _ Hv) in HC. injection HC as <-.
  destruct (Core_Enabled w' (core z) lvl).
  - unfold zap.writeIf, CheckedEntry_Write; simpl.
    erewrite bind_Ret;
      [|erewrite bind_Ret; [reflexivity|apply Core_Write_run]].
    rewrite written_root, Hr. cbn [written]. rewrite set_stderr_nil.
    by destruct (terminal (development z) lvl).
  - by destruct (terminal (development z) lvl).
Qed.

Lemma default_derivations_stay_silent_witness :
  exists ctx' w',
    derive_ctx [DWithLevel zapcore.DebugLevel] context.Background
      (log.start (time.Unix 0 0)) = Ret ctx' w'
    /\ stderr w' = []
    /\ log.Debug ctx' "m" [] [] w' = Ret tt w'.
Proof.
  destruct (default_derivations_stay_silent context.Background
              [DWithLevel zapcore.DebugLevel] (log.start (time.Unix 0 0)))
    as (ctx' & w' & R & _ & Ho & Hl).
  - reflexivity.
  - eexists. split; [reflexivity|]. split; reflexivity.
  - exists ctx', w'. split; [exact R|]. split; [exact Ho|].
    destruct (Hl "m" [] []) as (HD & _). exact HD.
Defined.

(** ** Further properties of the package *)

Section Further.

Lemma Key_eqb_eq a b : context.Key_eqb a b = true <-> a = b.
Proof.
  destruct a as [s|n], b as [t|m]; simpl; try (split; discriminate).
  - rewrite String.eqb_eq. split; [by intros ->|by intros [= ->]].
  - rewrite Nat.eqb_eq. split; [by intros ->|by intros [= ->]].
Qed.

Lemma Value_other ctx k v k' :
  k' <> k ->
  context.Value (context.WithValue ctx k v) k' = context.Value ctx k'.
Proof.
  intros Hne. simpl.
  destruct (context.Key_eqb k k') eqn:E; [|done].
  apply Key_eqb_eq in E. congruence.
Qed.

Lemma getLogger_attached ctx p w :
  log.getLogger
    (context.WithValue ctx log.contextKeyLogger (context.anyLogger p)) w
  = Ret (log.LoggerPtr p) w.
Proof. reflexivity. Qed.

Lemma derived_fresh d f f' z :
  (forall l, d <> DWithLevel l) -> derived d f z = derived d f' z.
Proof. destruct d; [done|done|]. intros H. by destruct (H lvl). Qed.

Lemma derived_comm d1 d2 f z :
  sameKind d1 d2 = false ->
  derived d2 f (derived d1 f z) = derived d1 f (derived d2 f z).
Proof.
  destruct d1 as [s1|fs1|l1], d2 as [s2|fs2|l2]; try discriminate; intros _;
    simpl.
  - destruct (String.eqb s1 ""), fs2; reflexivity.
  - destruct (String.eqb s1 ""); reflexivity.
  - destruct fs1, (String.eqb s2 ""); reflexivity.
  - destruct fs1 as [|f1 fs1]; [reflexivity|]. simpl.
    by rewrite root_Core_With.
  - destruct (String.eqb s2 ""); reflexivity.
  - destruct fs2 as [|f2 fs2]; [reflexivity|]. simpl.
    by rewrite root_Core_With.
Qed.

Lemma derived_With_core fs f z :
  derived (DWith fs) f z
  = mkLogger (Core_With (core z) fs) (development z) (name z) (addCaller z)
      (addStack z) (callerSkip z).
Proof.
  destruct fs; [|done]. simpl. rewrite Core_With_nil. by destruct z.
Qed.

(** Two derivations in a row. *)
Lemma derive2_spec d1 d2 p z w :
  view w (log.LoggerPtr p) = Some z ->
  exists q w1 w',
    derive [d1; d2] (log.LoggerPtr p) w = Ret (log.LoggerPtr q) w'
    /\ extends w w'
    /\ levels w1 = match d1 with
                   | DWithLevel l => (levels w ++ [l])%list
                   | _ => levels w
                   end
    /\ levels w' = match d2 with
                   | DWithLevel l => (levels w1 ++ [l])%list
                   | _ => levels w1
                   end
    /\ view w' (log.LoggerPtr q)
       = Some (derived d2 (length (levels w1))
                 (derived d1 (length (levels w)) z)).
Proof.
  intros Hv.
  destruct (derive1_spec d1 p z w Hv) as (q1 & w1 & R1 & _ & E1 & V1 & L1).
  destruct (derive1_spec d2 q1 _ w1 V1) as (q & w' & R2 & _ & E2 & V2 & L2).
  exists q, w1, w'. split.
  { cbn [derive]. rewrite (bind_Ret _ _ _ _ _ R1).
    by rewrite (bind_Ret _ _ _ _ _ R2). }
  split; [eapply extends_trans; eassumption|]. done.
Qed.

Lemma holder_Core_With c fs : holder (Core_With c fs) = holder c.
Proof. by destruct c. Qed.

Lemma written_length c ent fields : (length (written c ent fields) <= 1)%nat.
Proof. induction c; simpl; lia. Qed.

End Further.

(** X1.  Attaching no logger detaches: [Context(ctx, nil)] stores nil under
    the package's key, so that the lookup in the new context yields the
    [DefaultLogger], also when [ctx] carried a facade; the process is left
    as it was, and logging through the new context is logging on the
    [DefaultLogger]. *)
Theorem Context_nil_detaches (ctx : context.Context) (w : World) :
  exists ctx',
    log.Context ctx log.nilLogger w = Ret ctx' w
    /\ log.getLogger ctx' w = Ret (log.LoggerPtr (DefaultLogger w)) w
    /\ forall msg fields stk,
         log.Info ctx' msg fields stk w
         = log.Logger_Info (log.LoggerPtr (DefaultLogger w)) msg fields
             (log.frame "Info" 98 :: stk) w.
Proof. eexists. split; [reflexivity|]. split; reflexivity. Qed.

(** X2.  [Context], [Named], [With] and [WithLevel] store under the
    package's key only: in the context they return, the lookup of every
    other key is that of the parent context, and the lookup of the
    package's key is the facade just attached, whatever the parent
    carried. *)
Theorem context_functions_touch_one_key (ctx : context.Context) (p : loc)
    (z : zap_Logger) (w : World) :
  view w (log.LoggerPtr p) = Some z ->
  (exists ctx' w',
     log.Context ctx (log.LoggerPtr p) w = Ret ctx' w'
     /\ log.getLogger ctx' w' = Ret (log.LoggerPtr p) w'
     /\ forall k, k <> log.contextKeyLogger ->
          context.Value ctx' k = context.Value ctx k)
  /\ (log.getLogger ctx w = Ret (log.LoggerPtr p) w ->
      forall d, exists ctx' w' q,
        derive_ctx1 d ctx w = Ret ctx' w'
        /\ log.getLogger ctx' w' = Ret (log.LoggerPtr q) w'
        /\ loggers w !! q = None
        /\ forall k, k <> log.contextKeyLogger ->
             context.Value ctx' k = context.Value ctx k).
Proof.
  intros Hv. split.
  - eexists _, _. split; [by apply (Context_run ctx p z)|].
    split; [reflexivity|]. intros k Hk. by apply Value_other.
  - intros G d.
    destruct (derive1_spec d p z w Hv) as (q & w' & R & Hq & _).
    eexists _, w', q. split.
    { rewrite (derive_ctx1_run _ _ _ _ G).
      by rewrite (bind_Ret _ _ _ _ _ R). }
    split; [reflexivity|].
    split; [subst q; by apply lookup_ge_None|].
    intros k Hk. by apply Value_other.
Qed.

Lemma context_functions_touch_one_key_witness :
  let w := world_of (production zapcore.ErrorLevel) in
  let ctx := context.WithValue context.Background (context.foreignKey 3)
               (context.anyOther 5) in
  exists ctx' w',
    log.Context ctx (log.LoggerPtr 1%nat) w = Ret ctx' w'
    /\ context.Value ctx' (context.foreignKey 3) = context.anyOther 5.
Proof.
  destruct (context_functions_touch_one_key
              (context.WithValue context.Background (context.foreignKey 3)
                 (context.anyOther 5))
              1%nat
              (mkLogger
                 (coreWithLevel (log.newZapCoreAtLevel zapcore.DebugLevel) O)
                 false "" true zapcore.ErrorLevel 1)
              (world_of (production zapcore.ErrorLevel)))
    as [(ctx' & w' & R & _ & Hk) _]; [reflexivity|].
  exists ctx', w'. split; [exact R|].
  rewrite Hk; [reflexivity|discriminate].
Defined.

(** X3.  Derivations of different kinds commute: [Named], [With] and
    [WithLevel] applied to a facade in either order give facades that stand
    for equal [zap.Logger]s, with the same name, fields and holder, and
    leave the same level holders behind. *)
Theorem derivations_commute (d1 d2 : Deriv) (p : loc) (z : zap_Logger)
    (w : World) :
  view w (log.LoggerPtr p) = Some z ->
  sameKind d1 d2 = false ->
  exists q w' q' w'' z',
    derive [d1; d2] (log.LoggerPtr p) w = Ret (log.LoggerPtr q) w'
    /\ derive [d2; d1] (log.LoggerPtr p) w = Ret (log.LoggerPtr q') w''
    /\ view w' (log.LoggerPtr q) = Some z'
    /\ view w'' (log.LoggerPtr q') = Some z'
    /\ levels w' = levels w''.
Proof.
  intros Hv Hk.
  destruct (derive2_spec d1 d2 p z w Hv)
    as (q & w1 & w' & R & _ & L1 & L' & V).
  destruct (derive2_spec d2 d1 p z w Hv)
    as (q' & w2 & w'' & R' & _ & L2 & L'' & V').
  exists q, w', q', w'', (derived d2 (length (levels w1))
                            (derived d1 (length (levels w)) z)).
  split; [exact R|]. split; [exact R'|]. split; [exact V|].
  split.
  - rewrite V'. f_equal.
    destruct d1 as [s1|fs1|l1], d2 as [s2|fs2|l2]; try discriminate;
      cbn [derive] in *; rewrite ?L1, ?L2;
      match goal with
      | |- derived ?a _ (derived ?b _ _) = _ =>
          exact (derived_comm b a (length (levels w)) z eq_refl)
      end.
  - rewrite L', L'', L1, L2.
    destruct d1, d2; try discriminate; reflexivity.
Qed.

Lemma derivations_commute_witness :
  exists q w' q' w'' z',
    derive [DWithLevel zapcore.InfoLevel; DNamed "n"] (log.LoggerPtr 1%nat)
      (world_of (production zapcore.ErrorLevel)) = Ret (log.LoggerPtr q) w'
    /\ derive [DNamed "n"; DWithLevel zapcore.InfoLevel] (log.LoggerPtr 1%nat)
         (world_of (production zapcore.ErrorLevel))
       = Ret (log.LoggerPtr q') w''
    /\ view w' (log.LoggerPtr q) = Some z'
    /\ view w'' (log.LoggerPtr q') = Some z'.
Proof.
  destruct (derivations_commute
              (DWithLevel zapcore.InfoLevel) (DNamed "n") 1%nat
              (mkLogger
                 (coreWithLevel (log.newZapCoreAtLevel zapcore.DebugLevel) O)
                 false "" true zapcore.ErrorLevel 1)
              (world_of (production zapcore.ErrorLevel)))
    as (q & w' & q' & w'' & z' & R & R' & V & V' & _);
    [reflexivity | reflexivity |].
  exists q, w', q', w'', z'. repeat split; assumption.
Defined.

(** X4.  [With] composes: adding the fields [fs] and then the fields [gs]
    to a context gives a facade that stands for the same [zap.Logger] as
    adding [fs ++ gs] at once; its core is the parent's with the fields
    appended in that order. *)
Theorem With_composes (ctx : context.Context) (p : loc) (z : zap_Logger)
    (fs gs : list zapcore.Field) (w : World) :
  log.getLogger ctx w = Ret (log.LoggerPtr p) w ->
  view w (log.LoggerPtr p) = Some z ->
  exists c1 w1 c2 w2 q1 q2 z',
    (do c <- log.With ctx fs; log.With c gs) w = Ret c1 w1
    /\ log.With ctx (fs ++ gs)%list w = Ret c2 w2
    /\ log.getLogger c1 w1 = Ret (log.LoggerPtr q1) w1
    /\ log.getLogger c2 w2 = Ret (log.LoggerPtr q2) w2
    /\ view w1 (log.LoggerPtr q1) = Some z'
    /\ view w2 (log.LoggerPtr q2) = Some z'
    /\ core z' = Core_With (core z) (fs ++ gs)%list
    /\ name z' = name z.
Proof.
  intros G Hv.
  destruct (derive1_spec (DWith fs) p z w Hv)
    as (qa & wa & Ra & _ & _ & Va & _).
  destruct (derive1_spec (DWith gs) qa _ wa Va)
    as (q1 & w1 & R1 & _ & _ & V1 & _).
  destruct (derive1_spec (DWith (fs ++ gs)%list) p z w Hv)
    as (q2 & w2 & R2 & _ & _ & V2 & _).
  rewrite !derived_With_core in V1. rewrite derived_With_core in V2.
  cbn [core development name addCaller addStack callerSkip] in V1.
  rewrite Core_With_app in V1.
  eexists _, w1, _, w2, q1, q2, _.
  split.
  { change (log.With ctx fs) with (derive_ctx1 (DWith fs) ctx).
    erewrite bind_Ret;
      [|rewrite (derive_ctx1_run _ _ _ _ G);
        by rewrite (bind_Ret _ _ _ _ _ Ra)].
    change (log.With ?c gs) with (derive_ctx1 (DWith gs) c).
    rewrite (derive_ctx1_run _ _ qa _ (getLogger_attached _ _ _)).
    by rewrite (bind_Ret _ _ _ _ _ R1). }
  split.
  { change (log.With ctx (fs ++ gs)%list)
      with (derive_ctx1 (DWith (fs ++ gs)%list) ctx).
    rewrite (derive_ctx1_run _ _ _ _ G).
    by rewrite (bind_Ret _ _ _ _ _ R2). }
  split; [reflexivity|]. split; [reflexivity|].
  split; [exact V1|]. split; [exact V2|]. split; reflexivity.
Qed.

Lemma With_composes_witness :
  let w := world_of (production zapcore.DebugLevel) in
  let ctx := context.WithValue context.Background log.contextKeyLogger
               (context.anyLogger 1%nat) in
  exists c1 w1 c2 w2,
    (do c <- log.With ctx [zap.String_ "a" "1"];
     log.With c [zap.String_ "b" "2"]) w = Ret c1 w1
    /\ log.With ctx [zap.String_ "a" "1"; zap.String_ "b" "2"] w = Ret c2 w2.
Proof.
  destruct (With_composes
              (context.WithValue context.Background log.contextKeyLogger
                 (context.anyLogger 1%nat))
              1%nat
              (mkLogger
                 (coreWithLevel (log.newZapCoreAtLevel zapcore.DebugLevel) O)
                 false "" true zapcore.ErrorLevel 1)
              [zap.String_ "a" "1"] [zap.String_ "b" "2"]
              (world_of (production zapcore.DebugLevel)))
    as (c1 & w1 & c2 & w2 & _ & _ & _ & R1 & R2 & _);
    [reflexivity | reflexivity |].
  exists c1, w1, c2, w2. split; [exact R1 | exact R2].
Defined.

(** X5.  Empty derivations: [Named("")] and [With()] with no field return
    a new facade around the [zap.Logger] of the parent itself; no
    [zap.Logger] and no level holder is allocated, so parent and child
    stand for the same logger. *)
Theorem empty_derivation_shares_logger (p : loc) (z : zap_Logger)
    (w : World) :
  view w (log.LoggerPtr p) = Some z ->
  exists q q' w' w'',
    log.logger_Named p "" w = Ret (log.LoggerPtr q) w'
    /\ log.logger_With p [] w = Ret (log.LoggerPtr q') w''
    /\ loggers w !! q = None /\ loggers w !! q' = None
    /\ loggers w' !! q = loggers w !! p
    /\ loggers w'' !! q' = loggers w !! p
    /\ zaps w' = zaps w /\ zaps w'' = zaps w
    /\ levels w' = levels w /\ levels w'' = levels w
    /\ view w' (log.LoggerPtr q) = Some z
    /\ view w'' (log.LoggerPtr q') = Some z.
Proof.
  intros Hv. destruct (view_inv _ _ _ Hv) as (a & Hp & Hz).
  exists (length (loggers w)), (length (loggers w)),
    (set_loggers (fun h => (h ++ [a])%list) w),
    (set_loggers (fun h => (h ++ [a])%list) w).
  split.
  { unfold log.logger_Named, zap.Named, bind, deref. by rewrite Hp. }
  split.
  { unfold log.logger_With, zap.With, bind, deref. by rewrite Hp. }
  split; [by apply lookup_ge_None|]. split; [by apply lookup_ge_None|].
  assert (Hq : loggers (set_loggers (fun h => (h ++ [a])%list) w)
               !! length (loggers w) = Some a) by apply lookup_fresh.
  unfold view. rewrite Hq, Hp. repeat split; done.
Qed.

Lemma empty_derivation_shares_logger_witness :
  exists q w',
    log.logger_Named 1%nat "" (world_of (production zapcore.DebugLevel))
    = Ret (log.LoggerPtr q) w'
    /\ zaps w' = zaps (world_of (production zapcore.DebugLevel)).
Proof.
  destruct (empty_derivation_shares_logger 1%nat
              (mkLogger
                 (coreWithLevel (log.newZapCoreAtLevel zapcore.DebugLevel) O)
                 false "" true zapcore.ErrorLevel 1)
              (world_of (production zapcore.DebugLevel)))
    as (q & q' & w' & w'' & R & _ & _ & _ & _ & _ & Z & _);
    [reflexivity|].
  exists q, w'. split; [exact R | exact Z].
Defined.

Lemma holder_derived d f z :
  holder (core (derived d f z))
  = match d with DWithLevel _ => Some f | _ => holder (core z) end.
Proof.
  destruct d as [s|fs|l]; simpl.
  - by destruct (String.eqb s "").
  - destruct fs; [done|]. cbn [core]. apply holder_Core_With.
  - done.
Qed.

(** X6.  The child [WithLevel] returns contains all of the parent: at a
    level its own holder enables it writes exactly what the parent's core
    writes for the same call (same name, same accumulated fields, same
    caller and stack-trace settings), and below that level it writes
    nothing, whatever the parent's threshold is. *)
Theorem WithLevel_keeps_parent_output (p : loc) (z : zap_Logger)
    (level : zapcore.Level) (w : World) :
  view w (log.LoggerPtr p) = Some z ->
  exists q w',
    log.logger_WithLevel p level w = Ret (log.LoggerPtr q) w'
    /\ forall lvl msg fields stk,
         Logger_log lvl (log.LoggerPtr q) msg fields stk w'
         = outcome (terminal (development z) lvl) msg
             (set_stderr
                (fun o =>
                   (o ++ if zapcore.Level_Enabled level lvl
                         then written (core z) (entryFor z w lvl msg stk)
                                fields
                         else [])%list) w').
Proof.
  intros Hv.
  destruct (derive1_spec (DWithLevel level) p z w Hv)
    as (q & w' & R & _ & E & V & L).
  exists q, w'. split; [exact R|].
  intros lvl msg fields stk.
  rewrite (Logger_log_run _ _ _ _ _ _ _ V).
  unfold emitted. cbn [derived core development].
  unfold Core_Enabled. rewrite L, lookup_fresh.
  rewrite written_root. cbn [root].
  rewrite <- written_root.
  unfold entryFor. cbn [derived name addCaller addStack callerSkip].
  by rewrite (ext_now _ _ E).
Qed.

Lemma WithLevel_keeps_parent_output_witness :
  exists q w',
    log.logger_WithLevel 1%nat zapcore.InfoLevel
      (world_of (production zapcore.ErrorLevel)) = Ret (log.LoggerPtr q) w'.
Proof.
  destruct (WithLevel_keeps_parent_output 1%nat
              (mkLogger
                 (coreWithLevel (log.newZapCoreAtLevel zapcore.DebugLevel) O)
                 false "" true zapcore.ErrorLevel 1)
              zapcore.InfoLevel (world_of (production zapcore.ErrorLevel)))
    as (q & w' & R & _); [reflexivity|].
  exists q, w'. exact R.
Defined.

(** X7.  In a chain of derivations the last [WithLevel] decides: the
    threshold of the resulting facade is the level of the last [WithLevel]
    of the chain, and the threshold of the parent if the chain has
    none. *)
Theorem last_WithLevel_decides (ds : list Deriv) (p : loc) (z : zap_Logger)
    (w : World) :
  view w (log.LoggerPtr p) = Some z ->
  core_ok w (core z) ->
  exists q w',
    derive ds (log.LoggerPtr p) w = Ret (log.LoggerPtr q) w'
    /\ threshold w' (log.LoggerPtr q)
       = match lastLevel ds with
         | Some l => Some l
         | None => threshold w (log.LoggerPtr p)
         end.
Proof.
  revert p z w. induction ds as [|d ds IH]; intros p z w Hv Hok.
  - exists p, w. split; reflexivity.
  - destruct (derive1_spec d p z w Hv) as (q1 & w1 & R1 & _ & E1 & V1 & L1).
    assert (Hh := holder_derived d (length (levels w)) z).
    assert (Hok1 : core_ok w1 (core (derived d (length (levels w)) z))).
    { unfold core_ok. rewrite Hh.
      destruct d as [s|fs|l]; try by apply (core_ok_extends w).
      rewrite L1, lookup_fresh. eauto. }
    destruct (IH q1 _ w1 V1 Hok1) as (q & w' & R & T).
    exists q, w'. split.
    { cbn [derive]. by rewrite (bind_Ret _ _ _ _ _ R1). }
    rewrite T. cbn [lastLevel]. destruct (lastLevel ds); [done|].
    unfold threshold. rewrite V1, Hv, Hh. unfold core_ok in Hok.
    destruct d as [s|fs|l].
    + destruct (holder (core z)) as [h|]; [|done].
      destruct Hok as [l Hl]. by rewrite Hl, (extends_level _ _ _ _ E1 Hl).
    + destruct (holder (core z)) as [h|]; [|done].
      destruct Hok as [l Hl]. by rewrite Hl, (extends_level _ _ _ _ E1 Hl).
    + by rewrite L1, lookup_fresh.
Qed.

Lemma last_WithLevel_decides_witness :
  exists q w',
    derive [DWithLevel zapcore.InfoLevel; DNamed "n";
            DWithLevel zapcore.DebugLevel; DWith []]
      (log.LoggerPtr 1%nat) (world_of (production zapcore.ErrorLevel))
    = Ret (log.LoggerPtr q) w'
    /\ threshold w' (log.LoggerPtr q) = Some zapcore.DebugLevel.
Proof.
  destruct (last_WithLevel_decides
              [DWithLevel zapcore.InfoLevel; DNamed "n";
               DWithLevel zapcore.DebugLevel; DWith []]
              1%nat
              (mkLogger
                 (coreWithLevel (log.newZapCoreAtLevel zapcore.DebugLevel) O)
                 false "" true zapcore.ErrorLevel 1)
              (world_of (production zapcore.ErrorLevel)))
    as (q & w' & R & T); [reflexivity | by eexists |].
  exists q, w'. split; [exact R | exact T].
Defined.

Lemma NewProductionLogger_run h w :
  log.NewProductionLogger h w
  = Ret (log.LoggerPtr (length (loggers w)))
      (set_loggers (fun l => (l ++ [S (length (zaps w))])%list)
         (set_zaps
            (fun l =>
               ((l ++ [mkLogger (log.newZapCoreAtLevel zapcore.DebugLevel)
                         false "" false (zapcore.FatalLevel + 1) 0])
                  ++ [mkLogger
                        (coreWithLevel
                           (log.newZapCoreAtLevel zapcore.DebugLevel) h)
                        false "" true zapcore.ErrorLevel 1])%list) w)).
Proof.
  unfold log.NewProductionLogger, zap.New, zap.WithOptions, bind, deref,
    alloc_zap, alloc_logger, ret.
  cbn [zaps set_zaps]. rewrite lookup_fresh.
  cbn [fold_left zap.apply log.wrapCoreWithLevel core development name
       addCaller addStack callerSkip log.newZapCoreAtLevel].
  unfold set_loggers, set_zaps; simpl.
  rewrite length_app; simpl. rewrite Nat.add_1_r. reflexivity.
Qed.

(** X8.  [NewProductionLogger(lvl)] returns an unnamed facade, not in
    development mode, that records the caller and reads its threshold from
    [lvl] each time: after any later [SetLevel] on [lvl] it logs at a level
    exactly when that level is at or above the value written last (the
    value [lvl] had, if nothing was written).  Creating it only
    allocates. *)
Theorem NewProductionLogger_tracks_holder (h : loc) (cur : zapcore.Level)
    (w : World) :
  levels w !! h = Some cur ->
  exists q w' z,
    log.NewProductionLogger h w = Ret (log.LoggerPtr q) w'
    /\ extends w w'
    /\ view w' (log.LoggerPtr q) = Some z
    /\ name z = "" /\ development z = false /\ addCaller z = true
    /\ holder (core z) = Some h
    /\ forall vs l,
         enabled (writes h vs w') (log.LoggerPtr q) l
         = zapcore.Level_Enabled (default cur (last vs)) l.
Proof.
  intros Hh. rewrite NewProductionLogger_run.
  eexists _, _, _. split; [reflexivity|].
  split.
  { eapply extends_trans; [|apply extends_alloc_logger].
    split; simpl; try done. rewrite <- app_assoc. by apply prefix_app_r. }
  split.
  { unfold view. cbn [loggers set_loggers set_zaps zaps].
    rewrite lookup_fresh. rewrite lookup_app_r; rewrite length_app; simpl;
      [|lia].
    replace (S (length (zaps w)) - (length (zaps w) + 1))%nat with O by lia.
    reflexivity. }
  split; [done|]. split; [done|]. split; [done|]. split; [done|].
  intros vs l.
  match goal with |- enabled (writes h vs ?w1) _ _ = _ => set (w' := w1) end.
  assert (Hh' : levels w' !! h = Some cur) by exact Hh.
  destruct (writes_spec h vs w' cur Hh') as (Hz & Hl & _ & Hlast & _).
  unfold enabled, view. rewrite Hz, Hl.
  subst w'. cbn [loggers set_loggers set_zaps zaps].
  rewrite lookup_fresh. rewrite lookup_app_r; rewrite length_app; simpl;
    [|lia].
  replace (S (length (zaps w)) - (length (zaps w) + 1))%nat with O by lia.
  cbn [lookup list_lookup core Core_Enabled].
  by rewrite Hlast.
Qed.

Lemma NewProductionLogger_tracks_holder_witness :
  let w := world_of (zap.NewAtomicLevelAt zapcore.ErrorLevel
                       (log.start (time.Unix 0 0))) in
  exists q w',
    log.NewProductionLogger O w = Ret (log.LoggerPtr q) w'
    /\ enabled (writes O [zapcore.DebugLevel] w') (log.LoggerPtr q)
         zapcore.DebugLevel = true.
Proof.
  destruct (NewProductionLogger_tracks_holder O zapcore.ErrorLevel
              (world_of (zap.NewAtomicLevelAt zapcore.ErrorLevel
                           (log.start (time.Unix 0 0)))))
    as (q & w' & z & R & _ & _ & _ & _ & _ & _ & He); [reflexivity|].
  exists q, w'. split; [exact R|].
  rewrite He. reflexivity.
Defined.



(** X10.  [Panic] always panics: on every facade and at every threshold
    the call ends in a panic with the message, after the record was
    written if [PanicLevel] is enabled and with nothing written if it is
    not; the same holds for the free function on a context that carries
    the facade. *)
Theorem Panic_panics (p : loc) (z : zap_Logger) (msg : string)
    (fields : list zapcore.Field) (stk : list runtime.Frame) (w : World) :
  view w (log.LoggerPtr p) = Some z ->
  log.Logger_Panic (log.LoggerPtr p) msg fields stk w
  = Abort (GoPanic msg)
      (set_stderr
         (fun o => (o ++ emitted z w zapcore.PanicLevel msg fields stk)%list)
         w)
  /\ (enabled w (log.LoggerPtr p) zapcore.PanicLevel = false ->
      emitted z w zapcore.PanicLevel msg fields stk = [])
  /\ forall ctx,
       log.getLogger ctx w = Ret (log.LoggerPtr p) w ->
       log.Panic ctx msg fields stk w
       = Abort (GoPanic msg)
           (set_stderr
              (fun o => (o ++ emitted z w zapcore.PanicLevel msg fields
                                (log.frame "Panic" 106 :: stk))%list) w).
Proof.
  intros Hv.
  assert (F : forall stk',
    log.Logger_Panic (log.LoggerPtr p) msg fields stk' w
    = Abort (GoPanic msg)
        (set_stderr
           (fun o => (o ++ emitted z w zapcore.PanicLevel msg fields
                             stk')%list) w)).
  { intros stk'.
    change (log.Logger_Panic (log.LoggerPtr p) msg fields stk')
      with (Logger_log zapcore.PanicLevel (log.LoggerPtr p) msg fields stk').
    by rewrite (Logger_log_run _ _ _ _ _ _ _ Hv). }
  split; [apply F|]. split.
  - unfold enabled, emitted. rewrite Hv. by intros ->.
  - intros ctx G. unfold log.Panic. rewrite (bind_Ret _ _ _ _ _ G). apply F.
Qed.

Lemma Panic_panics_witness :
  exists w',
    log.Logger_Panic (log.LoggerPtr 1%nat) "m" [] []
      (world_of (production zapcore.FatalLevel)) = Abort (GoPanic "m") w'.
Proof.
  eexists.
  apply (Panic_panics 1%nat
           (mkLogger
              (coreWithLevel (log.newZapCoreAtLevel zapcore.DebugLevel) O)
              false "" true zapcore.ErrorLevel 1)
           "m" [] [] (world_of (production zapcore.FatalLevel))).
  reflexivity.
Defined.

(** X11.  [Debug], [Info], [Warn] and [Error] always return, and so does
    [DPanic] on a logger that is not in development mode.  They add at
    most one line to [os.Stderr], none if the level is disabled, and
    change nothing else: level holders, loggers, facades and the
    [DefaultLogger] are as before. *)
Theorem leveled_logging_returns (ctx : context.Context) (p : loc)
    (z : zap_Logger) (msg : string) (fields : list zapcore.Field)
    (stk : list runtime.Frame) (w : World) :
  log.getLogger ctx w = Ret (log.LoggerPtr p) w ->
  view w (log.LoggerPtr p) = Some z ->
  let after lvl fr :=
    set_stderr
      (fun o => (o ++ emitted z w lvl msg fields (fr :: stk))%list) w in
  log.Debug ctx msg fields stk w
  = Ret tt (after zapcore.DebugLevel (log.frame "Debug" 77))
  /\ log.Info ctx msg fields stk w
     = Ret tt (after zapcore.InfoLevel (log.frame "Info" 98))
  /\ log.Warn ctx msg fields stk w
     = Ret tt (after zapcore.WarnLevel (log.frame "Warn" 112))
  /\ log.Error ctx msg fields stk w
     = Ret tt (after zapcore.ErrorLevel (log.frame "Error" 83))
  /\ (development z = false ->
      log.DPanic ctx msg fields stk w
      = Ret tt (after zapcore.DPanicLevel (log.frame "DPanic" 71)))
  /\ forall lvl stk',
       (length (emitted z w lvl msg fields stk') <= 1)%nat
       /\ (enabled w (log.LoggerPtr p) lvl = false ->
           emitted z w lvl msg fields stk' = []).
Proof.
  intros G Hv after.
  assert (L : forall lvl s,
            Logger_log lvl (log.LoggerPtr p) msg fields s w
            = outcome (terminal (development z) lvl) msg
                (set_stderr
                   (fun o => (o ++ emitted z w lvl msg fields s)%list) w))
    by (intros; by apply Logger_log_run).
  unfold log.Debug, log.Info, log.Warn, log.Error, log.DPanic.
  rewrite !(bind_Ret _ _ _ _ _ G).
  split; [exact (L zapcore.DebugLevel _)|].
  split; [exact (L zapcore.InfoLevel _)|].
  split; [exact (L zapcore.WarnLevel _)|].
  split; [exact (L zapcore.ErrorLevel _)|].
  split.
  { intros Hd.
    change (log.Logger_DPanic (log.LoggerPtr p) msg fields
              (log.frame "DPanic" 71 :: stk))
      with (Logger_log zapcore.DPanicLevel (log.LoggerPtr p) msg fields
              (log.frame "DPanic" 71 :: stk)).
    rewrite L, Hd. reflexivity. }
  intros lvl stk'. unfold emitted, enabled. rewrite Hv. split.
  - destruct (Core_Enabled w (core z) lvl); [apply written_length|simpl; lia].
  - by intros ->.
Qed.

Lemma leveled_logging_returns_witness :
  let w := world_of (production zapcore.InfoLevel) in
  let ctx := context.WithValue context.Background log.contextKeyLogger
               (context.anyLogger 1%nat) in
  exists w', log.Debug ctx "m" [] [] w = Ret tt w'.
Proof.
  eexists.
  apply (leveled_logging_returns
           (context.WithValue context.Background log.contextKeyLogger
              (context.anyLogger 1%nat))
           1%nat
           (mkLogger
              (coreWithLevel (log.newZapCoreAtLevel zapcore.DebugLevel) O)
              false "" true zapcore.ErrorLevel 1)
           "m" [] [] (world_of (production zapcore.InfoLevel)));
    reflexivity.
Defined.

(** ** The width of a timestamp *)

#[local] Ltac Zify.zify_post_hook ::= Z.to_euclidean_division_equations.


Section Width.

Lemma length_append (a b : string) :
  String.length (a ++ b) = (String.length a + String.length b)%nat.
Proof. induction a as [|c a IH]; simpl; [done|by rewrite IH]. Qed.

Lemma digits_go_length (k : nat) : forall fuel n acc,
  0 <= n < 10 ^ Z.of_nat (S k) ->
  (String.length (strconv.digits_go fuel n acc)
   <= String.length acc + S k)%nat.
Proof.
  induction k as [|k IH]; intros fuel n acc Hn.
  - destruct fuel as [|fuel]; simpl; [lia|].
    destruct (Z.ltb_spec n 10); simpl; [lia|].
    change (10 ^ Z.of_nat 1) with 10 in Hn. lia.
  - destruct fuel as [|fuel]; simpl; [lia|].
    destruct (Z.ltb_spec n 10); simpl; [lia|].
    assert (Hq : 0 <= n / 10 < 10 ^ Z.of_nat (S k)).
    { replace (10 ^ Z.of_nat (S (S k))) with (10 * 10 ^ Z.of_nat (S k)) in Hn
        by (rewrite (Nat2Z.inj_succ (S k)), Z.pow_succ_r; lia).
      split; [apply Z.div_pos; lia|].
      apply Z.div_lt_upper_bound; lia. }
    specialize (IH fuel (n / 10)
                  (String (strconv.digit (n mod 10)) acc) Hq).
    simpl in IH. lia.
Qed.

Lemma appendInt_length (x : Z) (width : nat) :
  0 <= x < 10 ^ Z.of_nat width -> (0 < width)%nat ->
  String.length (time.appendInt x width) = width.
Proof.
  intros Hx Hw. unfold time.appendInt.
  destruct (Z.ltb_spec x 0); [lia|]. cbn [append].
  rewrite Z.abs_eq by lia.
  destruct (Nat.ltb_spec (String.length (strconv.digits x)) width).
  - apply pad_length.
  - destruct width as [|k]; [lia|].
    pose proof (digits_go_length k (S (Z.to_nat (Z.log2 x))) x "" Hx) as Hd.
    unfold strconv.digits in *. change (String.length "") with O in Hd. lia.
Qed.

Lemma civil_bounds days :
  -719528 <= days <= 2932896 ->
  let '(y, m, d) := time.civil days in
  0 <= y <= 9999 /\ 1 <= m <= 12 /\ 1 <= d <= 31.
Proof.
  intros Hd. unfold time.civil.
  set (z := days + 719468).
  set (era := z / 146097).
  set (doe := z - era * 146097).
  set (yoe := (doe - doe / 1460 + doe / 36524 - doe / 146096) / 365).
  set (doy := doe - (365 * yoe + yoe / 4 - yoe / 100)).
  set (mp := (5 * doy + 2) / 153).
  assert (Hdoe : 0 <= doe <= 146096) by (subst doe era z; lia).
  assert (Hyoe : 0 <= yoe <= 399) by (subst yoe; lia).
  assert (Hdoy : 0 <= doy <= 365) by (subst doy yoe; lia).
  assert (Hmp : 0 <= mp <= 11) by (subst mp; lia).
  split; [|split].
  - destruct (Z.ltb_spec mp 10);
      [destruct (Z.leb_spec (mp + 3) 2)|destruct (Z.leb_spec (mp - 9) 2)];
      subst mp doy yoe doe era z; lia.
  - destruct (Z.ltb_spec mp 10); lia.
  - subst mp. lia.
Qed.

End Width.

(** X12.  Timestamps have a fixed width: for every instant of the years
    0000 to 9999, in whatever zone the value is, the text
    [rfc3399NanoTimeEncoder] appends has 27 characters. *)
Theorem timestamps_have_fixed_width (t : time.Time) :
  -62167219200 <= time.sec t <= 253402300799 ->
  String.length (encoders.appendPrim (log.rfc3399NanoTimeEncoder t))
  = 27%nat.
Proof.
  intros Ht.
  unfold log.rfc3399NanoTimeEncoder. cbn [encoders.appendPrim].
  unfold time.Format, log.RFC3339Micro. cbn [fold_right].
  unfold time.formatChunk, time.UTC.
  cbn [time.sec time.offset time.nsec].
  rewrite Z.add_0_r.
  pose proof (civil_bounds (time.sec t / 86400)) as Hc.
  destruct (time.civil (time.sec t / 86400)) as [[y m] d].
  destruct Hc as (Hy & Hm & Hd).
  { lia. }
  pose proof (Z.mod_pos_bound (time.sec t) 86400 ltac:(lia)) as Hs.
  rewrite !length_append.
  rewrite (appendInt_length y 4), !(appendInt_length _ 2), pad_length;
    try lia; try (change (10 ^ Z.of_nat 2) with 100);
    try (change (10 ^ Z.of_nat 4) with 10000); try lia.
  reflexivity.
Qed.

Lemma timestamps_have_fixed_width_witness :
  String.length
    (encoders.appendPrim
       (log.rfc3399NanoTimeEncoder (time.mkTime 1554754892 375067999 (-10800))))
  = 27%nat.
Proof.
  apply (timestamps_have_fixed_width
           (time.mkTime 1554754892 375067999 (-10800))).
  simpl. lia.
Defined.

(** ** The example web server *)

Section Server.

Lemma Debug_run ctx p z msg fields stk w :
  log.getLogger ctx w = Ret (log.LoggerPtr p) w ->
  view w (log.LoggerPtr p) = Some z ->
  log.Debug ctx msg fields stk w
  = Ret tt
      (set_stderr
         (fun o =>
            (o ++ emitted z w zapcore.DebugLevel msg fields
                    (log.frame "Debug" 77 :: stk))%list) w).
Proof.
  intros G Hv. unfold log.Debug. rewrite (bind_Ret _ _ _ _ _ G).
  change (log.Logger_Debug (log.LoggerPtr p) msg fields
            (log.frame "Debug" 77 :: stk))
    with (Logger_log zapcore.DebugLevel (log.LoggerPtr p) msg fields
            (log.frame "Debug" 77 :: stk)).
  by rewrite (Logger_log_run _ _ _ _ _ _ _ Hv).
Qed.

Lemma Core_Enabled_With w c fs lvl :
  Core_Enabled w (Core_With c fs) lvl = Core_Enabled w c lvl.
Proof. by destruct c. Qed.

Lemma getLogger_heaps ctx w w' l :
  DefaultLogger w' = DefaultLogger w ->
  log.getLogger ctx w = Ret l w -> log.getLogger ctx w' = Ret l w'.
Proof.
  intros HD. unfold log.getLogger. rewrite HD.
  destruct (context.Value ctx log.contextKeyLogger);
    intros [= <-]; reflexivity.
Qed.

Lemma Core_Enabled_levels w w' c lvl :
  levels w' = levels w -> Core_Enabled w' c lvl = Core_Enabled w c lvl.
Proof. intros H. destruct c; simpl; [done|done|by rewrite H]. Qed.

Lemma entryFor_now z w w' lvl msg stk :
  now w' = now w -> entryFor z w' lvl msg stk = entryFor z w lvl msg stk.
Proof. intros H. unfold entryFor. by rewrite H. Qed.

(** [greet] on a request whose context resolves to the facade [q]. *)
Lemma greet_run env stk body r q z w :
  log.getLogger (http.Context r) w = Ret (log.LoggerPtr q) w ->
  view w (log.LoggerPtr q) = Some z ->
  let w2 := world_of (main.elapse (main.busy env) w) in
  main.greet env stk body r w
  = Ret (body ++ ["Hello World!"])%list
      (set_stderr
         (fun o =>
            (o ++ emitted z w zapcore.DebugLevel "handling request"
                    [zapcore.mkField "url"
                       (zapcore.StringerType (http.URL r));
                     zapcore.mkField "headers"
                       (zapcore.ReflectType
                          (main.dump env (http.Header_ r)))]
                    (log.frame "Debug" 77
                       :: runtime.mkFrame "main.greet" main.file 17 :: stk)
               ++ emitted z w2 zapcore.DebugLevel "request time"
                    [zap.Duration "elapsed" (main.Sub (now w2) (now w))]
                    (log.frame "Debug" 77
                       :: runtime.mkFrame "main.greet" main.file 24 :: stk))%list)
         w2).
Proof.
  intros G Hv w2.
  set (fs1 := [zapcore.mkField "url" (zapcore.StringerType (http.URL r));
               zapcore.mkField "headers"
                 (zapcore.ReflectType
                    (main.dump env (http.Header_ r)))]).
  set (stk1 := runtime.mkFrame "main.greet" main.file 17 :: stk).
  set (stk2 := runtime.mkFrame "main.greet" main.file 24 :: stk).
  set (e1 := emitted z w zapcore.DebugLevel "handling request" fs1
               (log.frame "Debug" 77 :: stk1)).
  set (w1 := set_stderr (fun o => (o ++ e1)%list) w).
  set (w3 := world_of (main.elapse (main.busy env) w1)).
  assert (G3 : log.getLogger (http.Context r) w3 = Ret (log.LoggerPtr q) w3)
    by (by apply (getLogger_heaps _ w)).
  assert (V3 : view w3 (log.LoggerPtr q) = Some z) by exact Hv.
  unfold main.greet.
  erewrite bind_Ret by reflexivity.
  erewrite bind_Ret by (eapply Debug_run; eassumption).
  cbv zeta.
  erewrite bind_Ret by reflexivity.
  erewrite bind_Ret by reflexivity.
  erewrite bind_Ret by (eapply Debug_run; [exact G3|exact V3]).
  unfold ret. f_equal.
  unfold set_stderr; simpl. by rewrite <- app_assoc.
Qed.

(** The middleware up to [greet]: the request [greet] sees carries a
    facade of its own, for [requestLogger]. *)
Lemma handler_run env stk body r p z id w :
  view w (log.LoggerPtr p) = Some z ->
  main.requestID env r = inl id ->
  exists r' q w1,
    main.handler (log.LoggerPtr p) env stk body r w
    = main.greet env
        (main.calling "main.changeLogLevel.func1" 37
           (main.calling "main.withRequestID.func1" 54
              (main.calling "main.attachLogger.func1" 64 stk)))
        body r' w1
    /\ http.URL r' = http.URL r
    /\ http.Header_ r' = http.Header_ r
    /\ log.getLogger (http.Context r') w1 = Ret (log.LoggerPtr q) w1
    /\ view w1 (log.LoggerPtr q)
       = Some (requestLogger env id (length (levels w)) z)
    /\ extends w w1
    /\ levels w1
       = (levels w
            ++ if main.Int63n env <? 10 then [zapcore.DebugLevel] else [])%list.
Proof.
  intros Hv Hid.
  set (w0 := set_zaps
               (fun h => (h ++ [zap.apply (zap.AddCallerSkip 1) z])%list) w).
  assert (E0 : extends w w0) by apply extends_alloc_zap.
  assert (V0 : view w0 (log.LoggerPtr p) = Some z)
    by (eapply extends_view; eassumption).
  set (ctx0 := context.WithValue (http.Context r) log.contextKeyLogger
                 (context.anyLogger p)).
  set (rid := [zap.String_ "request_id" id]).
  destruct (derive1_spec (DWith rid) p z w0 V0)
    as (q1 & w1 & R1 & _ & E1 & V1 & L1).
  set (ctx1 := context.WithValue ctx0 log.contextKeyLogger
                 (context.anyLogger q1)).
  assert (S1 : log.With ctx0 rid w0 = Ret ctx1 w1).
  { change (log.With ctx0 rid) with (derive_ctx1 (DWith rid) ctx0).
    rewrite (derive_ctx1_run _ _ p) by reflexivity.
    by rewrite (bind_Ret _ _ _ _ _ R1). }
  assert (Hrid :
    (if String.eqb (http.Get (http.Header_ r) "x-request-id") ""
     then match main.NewV4 env with
          | inl u => ret u
          | inr err => abort (GoPanic err)
          end
     else ret (http.Get (http.Header_ r) "x-request-id")) w0 = Ret id w0).
  { unfold main.requestID in Hid.
    destruct (String.eqb (http.Get (http.Header_ r) "x-request-id") "").
    - destruct (main.NewV4 env); [|discriminate].
      by injection Hid as ->.
    - by injection Hid as ->. }
  assert (Hpre :
    main.handler (log.LoggerPtr p) env stk body r w
    = (do r2 <- (if main.Int63n env <? 10
                 then do ctx <- log.WithLevel ctx1 zapcore.DebugLevel;
                      ret (http.mkRequest (http.URL r) (http.Header_ r) ctx)
                 else ret (http.mkRequest (http.URL r) (http.Header_ r) ctx1));
       main.greet env
         (main.calling "main.changeLogLevel.func1" 37
            (main.calling "main.withRequestID.func1" 54
               (main.calling "main.attachLogger.func1" 64 stk)))
         body r2) w1).
  { unfold main.handler, main.attachLogger.
    erewrite bind_Ret by (apply Context_run; exact Hv).
    unfold main.withRequestID. cbv zeta.
    erewrite bind_Ret by exact Hrid.
    erewrite bind_Ret by exact S1.
    reflexivity. }
  rewrite Hpre. clear Hpre.
  unfold requestLogger.
  destruct (main.Int63n env <? 10) eqn:Hs.
  - destruct (derive1_spec (DWithLevel zapcore.DebugLevel) q1 _ w1 V1)
      as (q2 & w2 & R2 & _ & E2 & V2 & L2).
    exists (http.mkRequest (http.URL r) (http.Header_ r)
              (context.WithValue ctx1 log.contextKeyLogger
                 (context.anyLogger q2))), q2, w2.
    split.
    { erewrite bind_Ret; [reflexivity|].
      erewrite bind_Ret; [reflexivity|].
      change (log.WithLevel ctx1 zapcore.DebugLevel)
        with (derive_ctx1 (DWithLevel zapcore.DebugLevel) ctx1).
      rewrite (derive_ctx1_run _ _ q1) by reflexivity.
      by rewrite (bind_Ret _ _ _ _ _ R2). }
    split; [done|]. split; [done|]. split; [done|].
    split; [by rewrite V2, L1|].
    split; [eauto using extends_trans|].
    by rewrite L2, L1.
  - exists (http.mkRequest (http.URL r) (http.Header_ r) ctx1), q1, w1.
    split; [by erewrite bind_Ret by reflexivity|].
    split; [done|]. split; [done|]. split; [done|].
    split; [by rewrite V1|].
    split; [eauto using extends_trans|].
    by rewrite L1, app_nil_r.
Qed.

(** One request, from [attachLogger] to the end of [greet]. *)
Lemma serve_spec env stk body r p z id w :
  view w (log.LoggerPtr p) = Some z ->
  main.requestID env r = inl id ->
  exists w',
    main.handler (log.LoggerPtr p) env stk body r w
    = Ret (body ++ ["Hello World!"])%list w'
    /\ stderr w' = (stderr w ++ served env id z w r stk)%list
    /\ levels w `prefix_of` levels w'
    /\ zaps w `prefix_of` zaps w'
    /\ loggers w `prefix_of` loggers w'
    /\ DefaultLogger w' = DefaultLogger w
    /\ now w' = main.Add (now w) (main.busy env).
Proof.
  intros Hv Hid.
  destruct (handler_run env stk body r p z id w Hv Hid)
    as (r' & q & w1 & R & Hu & Hh & G & V & E & L).
  rewrite R, (greet_run _ _ _ _ _ _ _ G V). cbv zeta.
  set (w3 := world_of (main.elapse (main.busy env) w1)).
  set (w2 := world_of (main.elapse (main.busy env) w)).
  eexists. split; [reflexivity|].
  destruct E as [El Ez Elg Es En Ed].
  assert (En3 : now w3 = now w2) by (simpl; by rewrite En).
  split; [|repeat split; try assumption; exact En3].
  cbn [stderr set_stderr]. change (stderr w3) with (stderr w1).
  rewrite Es. f_equal.
  unfold served, emitted. cbv zeta. fold (greetStack 17 stk).
  fold (greetStack 24 stk). fold w2.
  set (zr := requestLogger env id (length (levels w)) z).
  assert (He : Core_Enabled w1 (core zr) zapcore.DebugLevel
               = (main.Int63n env <? 10)
                 || Core_Enabled w (core z) zapcore.DebugLevel).
  { subst zr. unfold requestLogger. cbn [core].
    destruct (main.Int63n env <? 10).
    - cbn [Core_Enabled orb]. by rewrite L, lookup_fresh.
    - rewrite app_nil_r in L.
      by rewrite Core_Enabled_With, (Core_Enabled_levels _ _ _ _ L). }
  rewrite (Core_Enabled_levels w1 w3) by reflexivity.
  rewrite He, Hu, Hh.
  destruct ((main.Int63n env <? 10)
            || Core_Enabled w (core z) zapcore.DebugLevel); [|done].
  rewrite (entryFor_now zr w w1) by exact En.
  rewrite (entryFor_now zr w2 w3) by exact En3.
  by rewrite En3, En.
Qed.

Lemma requestLogger_root env id fresh z enc l0 :
  root (core z) = ioCore enc l0 ->
  root (core (requestLogger env id fresh z))
  = ioCore (encoders.With enc [zap.String_ "request_id" id]) l0.
Proof.
  intros Hr. unfold requestLogger. cbn [core].
  destruct (main.Int63n env <? 10); cbn [root];
    by rewrite root_Core_With, Hr.
Qed.

Lemma EncodeEntry_request_id enc id ent fs :
  encoders.EncodeEntry (encoders.With enc [zap.String_ "request_id" id])
    ent fs
  = encoders.header (encoders.cfg enc) ent
      ++ encoders.buf enc ++ "[request_id:" ++ id ++ "]"
      ++ encoders.addFields (encoders.cfg enc) fs
      ++ encoders.trailer (encoders.cfg enc) ent.
Proof.
  unfold encoders.EncodeEntry, encoders.With.
  cbn [encoders.cfg encoders.buf encoders.addFields].
  unfold encoders.addField, encoders.segment, zap.String_.
  cbn [zapcore.Key zapcore.Value encoders.fieldValue].
  rewrite append_nil_r, !append_assoc. reflexivity.
Qed.

Lemma served_lines env id z enc l0 w r stk :
  root (core z) = ioCore enc l0 ->
  exists ent1 fs1 ent2 fs2,
    served env id z w r stk
    = if (main.Int63n env <? 10)
         || Core_Enabled w (core z) zapcore.DebugLevel
      then [encoders.EncodeEntry
              (encoders.With enc [zap.String_ "request_id" id]) ent1 fs1;
            encoders.EncodeEntry
              (encoders.With enc [zap.String_ "request_id" id]) ent2 fs2]
      else [].
Proof.
  intros Hr. unfold served. cbv zeta.
  rewrite !(written_root (core (requestLogger _ _ _ _))).
  rewrite (requestLogger_root _ _ _ _ _ _ Hr).
  eexists _, _, _, _. reflexivity.
Qed.

Lemma prefix_view w w' p z :
  zaps w `prefix_of` zaps w' -> loggers w `prefix_of` loggers w' ->
  view w (log.LoggerPtr p) = Some z -> view w' (log.LoggerPtr p) = Some z.
Proof.
  intros Hz Hl Hv. destruct (view_inv _ _ _ Hv) as (a & Hp & Ha).
  unfold view. rewrite (prefix_lookup_Some _ _ _ _ Hp Hl).
  exact (prefix_lookup_Some _ _ _ _ Ha Hz).
Qed.

End Server.

(** X13.  The request id reaches every line of a request: whatever logger
    [attachLogger] was given, as long as it writes through the key-value
    encoder, each line written while the request is served carries
    [[request_id:<id>]] right after the fields the logger already had and
    before the fields of the call; the response is the body with
    ["Hello World!"] appended. *)
Theorem request_id_on_every_line (env : main.Env) (stk : list runtime.Frame)
    (body : list string) (r : http.Request) (p : loc) (z : zap_Logger)
    (id : string) (enc : encoders.keyValueEncoder) (l0 : zapcore.Level)
    (w : World) :
  view w (log.LoggerPtr p) = Some z ->
  main.requestID env r = inl id ->
  root (core z) = ioCore enc l0 ->
  exists w' lines,
    main.handler (log.LoggerPtr p) env stk body r w
    = Ret (body ++ ["Hello World!"])%list w'
    /\ stderr w' = (stderr w ++ lines)%list
    /\ Forall
         (fun line =>
            exists ent fs,
              line = encoders.header (encoders.cfg enc) ent
                       ++ encoders.buf enc ++ "[request_id:" ++ id ++ "]"
                       ++ encoders.addFields (encoders.cfg enc) fs
                       ++ encoders.trailer (encoders.cfg enc) ent)
         lines.
Proof.
  intros Hv Hid Hr.
  destruct (serve_spec env stk body r p z id w Hv Hid) as (w' & R & S & _).
  exists w', (served env id z w r stk).
  split; [exact R|]. split; [exact S|].
  destruct (served_lines env id z enc l0 w r stk Hr)
    as (ent1 & fs1 & ent2 & fs2 & ->).
  destruct ((main.Int63n env <? 10)
            || Core_Enabled w (core z) zapcore.DebugLevel); [|constructor].
  repeat constructor; eexists _, _; apply EncodeEntry_request_id.
Qed.

Lemma request_id_on_every_line_witness :
  exists w' lines,
    main.handler (log.LoggerPtr 1%nat)
      (main.mkEnv 5 (inl "4b1d") 1000 (fun _ => "map[]")) [] []
      (http.mkRequest "/" [] context.Background)
      (world_of (production zapcore.ErrorLevel))
    = Ret ["Hello World!"] w'
    /\ stderr w' = lines.
Proof.
  destruct (request_id_on_every_line
              (main.mkEnv 5 (inl "4b1d") 1000 (fun _ => "map[]")) [] []
              (http.mkRequest "/" [] context.Background) 1%nat
              (mkLogger
                 (coreWithLevel (log.newZapCoreAtLevel zapcore.DebugLevel) O)
                 false "" true zapcore.ErrorLevel 1)
              "4b1d"
              (encoders.NewKeyValueEncoder log.encoderConfig)
              zapcore.DebugLevel
              (world_of (production zapcore.ErrorLevel)))
    as (w' & lines & R & S & _); [reflexivity | reflexivity | reflexivity |].
  exists w', lines. split; [exact R | exact S].
Defined.

(** X14.  Which requests are logged: a request adds its two records to
    [os.Stderr] exactly when it was picked ([rand.Int63n(100)] below the
    percentage 10) or the attached logger logs at [DebugLevel] anyway;
    every other request adds nothing.  With the holder of [main] at
    [ErrorLevel] only the picked requests are logged. *)
Theorem picked_requests_are_logged (env : main.Env)
    (stk : list runtime.Frame) (body : list string) (r : http.Request)
    (p : loc) (z : zap_Logger) (id : string)
    (enc : encoders.keyValueEncoder) (l0 : zapcore.Level) (w : World) :
  view w (log.LoggerPtr p) = Some z ->
  main.requestID env r = inl id ->
  root (core z) = ioCore enc l0 ->
  exists w' lines,
    main.handler (log.LoggerPtr p) env stk body r w
    = Ret (body ++ ["Hello World!"])%list w'
    /\ stderr w' = (stderr w ++ lines)%list
    /\ length lines
       = if (main.Int63n env <? 10)
            || enabled w (log.LoggerPtr p) zapcore.DebugLevel
         then 2%nat else 0%nat.
Proof.
  intros Hv Hid Hr.
  destruct (serve_spec env stk body r p z id w Hv Hid) as (w' & R & S & _).
  exists w', (served env id z w r stk).
  split; [exact R|]. split; [exact S|].
  destruct (served_lines env id z enc l0 w r stk Hr)
    as (ent1 & fs1 & ent2 & fs2 & ->).
  unfold enabled. rewrite Hv.
  by destruct ((main.Int63n env <? 10)
               || Core_Enabled w (core z) zapcore.DebugLevel).
Qed.

Lemma picked_requests_are_logged_witness :
  exists w' lines,
    main.handler (log.LoggerPtr 1%nat)
      (main.mkEnv 50 (inl "4b1d") 1000 (fun _ => "map[]")) [] []
      (http.mkRequest "/" [] context.Background)
      (world_of (production zapcore.ErrorLevel))
    = Ret ["Hello World!"] w'
    /\ stderr w' = lines /\ length lines = 0%nat.
Proof.
  destruct (picked_requests_are_logged
              (main.mkEnv 50 (inl "4b1d") 1000 (fun _ => "map[]")) [] []
              (http.mkRequest "/" [] context.Background) 1%nat
              (mkLogger
                 (coreWithLevel (log.newZapCoreAtLevel zapcore.DebugLevel) O)
                 false "" true zapcore.ErrorLevel 1)
              "4b1d"
              (encoders.NewKeyValueEncoder log.encoderConfig)
              zapcore.DebugLevel
              (world_of (production zapcore.ErrorLevel)))
    as (w' & lines & R & S & L); [reflexivity | reflexivity | reflexivity |].
  exists w', lines. split; [exact R|]. split; [exact S | exact L].
Defined.

(** X15.  The level of a picked request does not leak: after a request
    was served the logger given to [attachLogger] stands for the same
    [zap.Logger], no level holder that existed has changed, and the
    threshold of the shared logger and its emit decision at every level
    are what they were; the [DefaultLogger] is the same. *)
Theorem serving_leaves_shared_logger (env : main.Env)
    (stk : list runtime.Frame) (body : list string) (r : http.Request)
    (p : loc) (z : zap_Logger) (id : string) (w : World) :
  view w (log.LoggerPtr p) = Some z ->
  main.requestID env r = inl id ->
  core_ok w (core z) ->
  exists w',
    main.handler (log.LoggerPtr p) env stk body r w
    = Ret (body ++ ["Hello World!"])%list w'
    /\ view w' (log.LoggerPtr p) = Some z
    /\ (forall h l, levels w !! h = Some l -> levels w' !! h = Some l)
    /\ threshold w' (log.LoggerPtr p) = threshold w (log.LoggerPtr p)
    /\ (forall lvl,
          enabled w' (log.LoggerPtr p) lvl = enabled w (log.LoggerPtr p) lvl)
    /\ DefaultLogger w' = DefaultLogger w.
Proof.
  intros Hv Hid Hok.
  destruct (serve_spec env stk body r p z id w Hv Hid)
    as (w' & R & _ & Pl & Pz & Pg & D & _).
  pose proof (prefix_view w w' p z Pz Pg Hv) as Hv'.
  exists w'. split; [exact R|]. split; [exact Hv'|].
  split; [intros h l Hl; exact (prefix_lookup_Some _ _ _ _ Hl Pl)|].
  unfold threshold, enabled. rewrite Hv, Hv'.
  unfold core_ok in Hok.
  destruct (core z) as [|e l|inner h]; cbn [holder Core_Enabled] in *;
    try done.
  destruct Hok as [l Hl].
  rewrite Hl, (prefix_lookup_Some _ _ _ _ Hl Pl). done.
Qed.

Lemma serving_leaves_shared_logger_witness :
  exists w',
    main.handler (log.LoggerPtr 1%nat)
      (main.mkEnv 5 (inl "4b1d") 1000 (fun _ => "map[]")) [] []
      (http.mkRequest "/" [] context.Background)
      (world_of (production zapcore.ErrorLevel))
    = Ret ["Hello World!"] w'
    /\ threshold w' (log.LoggerPtr 1%nat) = Some zapcore.ErrorLevel.
Proof.
  destruct (serving_leaves_shared_logger
              (main.mkEnv 5 (inl "4b1d") 1000 (fun _ => "map[]")) [] []
              (http.mkRequest "/" [] context.Background) 1%nat
              (mkLogger
                 (coreWithLevel (log.newZapCoreAtLevel zapcore.DebugLevel) O)
                 false "" true zapcore.ErrorLevel 1)
              "4b1d"
              (world_of (production zapcore.ErrorLevel)))
    as (w' & R & _ & _ & T & _);
    [reflexivity | reflexivity | by eexists |].
  exists w'. split; [exact R | exact T].
Defined.

(** X16.  A request without request id for which [uuid.NewV4] fails is not
    served: [uuid.Must] panics with the error before anything is logged,
    and nothing was written to [os.Stderr]. *)
Theorem uuid_failure_panics (env : main.Env) (stk : list runtime.Frame)
    (body : list string) (r : http.Request) (p : loc) (z : zap_Logger)
    (err : string) (w : World) :
  view w (log.LoggerPtr p) = Some z ->
  main.requestID env r = inr err ->
  exists w',
    main.handler (log.LoggerPtr p) env stk body r w = Abort (GoPanic err) w'
    /\ extends w w'.
Proof.
  intros Hv Hid. eexists. split.
  - unfold main.handler, main.attachLogger.
    erewrite bind_Ret by (apply Context_run; exact Hv).
    unfold main.withRequestID. cbv zeta.
    cbn [http.Header_ http.WithContext].
    unfold main.requestID in Hid.
    destruct (String.eqb (http.Get (http.Header_ r) "x-request-id") "");
      [|discriminate].
    destruct (main.NewV4 env) as [u|e]; [discriminate|].
    injection Hid as ->. reflexivity.
  - apply extends_alloc_zap.
Qed.

Lemma uuid_failure_panics_witness :
  exists w',
    main.handler (log.LoggerPtr 1%nat)
      (main.mkEnv 5 (inr "rand: short read") 1000 (fun _ => "map[]")) [] []
      (http.mkRequest "/" [("Accept", ["*/*"])] context.Background)
      (world_of (production zapcore.ErrorLevel))
    = Abort (GoPanic "rand: short read") w'.
Proof.
  destruct (uuid_failure_panics
              (main.mkEnv 5 (inr "rand: short read") 1000 (fun _ => "map[]"))
              [] []
              (http.mkRequest "/" [("Accept", ["*/*"])] context.Background)
              1%nat
              (mkLogger
                 (coreWithLevel (log.newZapCoreAtLevel zapcore.DebugLevel) O)
                 false "" true zapcore.ErrorLevel 1)
              "rand: short read"
              (world_of (production zapcore.ErrorLevel)))
    as (w' & R & _); [reflexivity | reflexivity |].
  exists w'. exact R.
Defined.

(** X17.  The record of a free function names its caller: on a logger
    that records the caller with the caller skip [NewProductionLogger]
    passes (1), [Debug], [Info], [Warn] and [Error] of context.go hand
    the cores a record with the level of the function, the current time,
    the name of the logger, the message, and as caller the file and line
    of the function that called them, not a position inside the
    package. *)
Theorem free_functions_report_caller (ctx : context.Context) (p : loc)
    (z : zap_Logger) (msg : string) (fields : list zapcore.Field)
    (f : runtime.Frame) (stk : list runtime.Frame) (w : World) :
  log.getLogger ctx w = Ret (log.LoggerPtr p) w ->
  view w (log.LoggerPtr p) = Some z ->
  addCaller z = true ->
  callerSkip z = 1 ->
  let record lvl fr :=
    zapcore.mkEntry lvl (now w) (name z) msg
      (zapcore.mkCaller true (runtime.FrameFile f) (runtime.FrameLine f))
      (if zapcore.Level_Enabled (addStack z) lvl
       then runtime.traceString (fr :: f :: stk) else "") in
  let after lvl fr :=
    set_stderr
      (fun o =>
         (o ++ if enabled w (log.LoggerPtr p) lvl
               then written (core z) (record lvl fr) fields
               else [])%list) w in
  log.Debug ctx msg fields (f :: stk) w
  = Ret tt (after zapcore.DebugLevel (log.frame "Debug" 77))
  /\ log.Info ctx msg fields (f :: stk) w
     = Ret tt (after zapcore.InfoLevel (log.frame "Info" 98))
  /\ log.Warn ctx msg fields (f :: stk) w
     = Ret tt (after zapcore.WarnLevel (log.frame "Warn" 112))
  /\ log.Error ctx msg fields (f :: stk) w
     = Ret tt (after zapcore.ErrorLevel (log.frame "Error" 83)).
Proof.
  intros G Hv Hac Hcs record after.
  assert (L : forall lvl fr,
            Logger_log lvl (log.LoggerPtr p) msg fields (fr :: f :: stk) w
            = outcome (terminal (development z) lvl) msg (after lvl fr)).
  { intros lvl fr. rewrite (Logger_log_run _ _ _ _ _ _ _ Hv).
    subst after record. cbv beta. unfold emitted, enabled, entryFor.
    by rewrite Hv, Hac, Hcs. }
  unfold log.Debug, log.Info, log.Warn, log.Error.
  rewrite !(bind_Ret _ _ _ _ _ G).
  split; [exact (L zapcore.DebugLevel _)|].
  split; [exact (L zapcore.InfoLevel _)|].
  split; [exact (L zapcore.WarnLevel _)|].
  exact (L zapcore.ErrorLevel _).
Qed.

Lemma free_functions_report_caller_witness :
  let w := world_of (production zapcore.InfoLevel) in
  let ctx := context.WithValue context.Background log.contextKeyLogger
               (context.anyLogger 1%nat) in
  exists w',
    log.Info ctx "m" []
      [runtime.mkFrame "main.greet" main.file 17] w = Ret tt w'.
Proof.
  eexists.
  apply (free_functions_report_caller
           (context.WithValue context.Background log.contextKeyLogger
              (context.anyLogger 1%nat))
           1%nat
           (mkLogger
              (coreWithLevel (log.newZapCoreAtLevel zapcore.DebugLevel) O)
              false "" true zapcore.ErrorLevel 1)
           "m" [] (runtime.mkFrame "main.greet" main.file 17) []
           (world_of (production zapcore.InfoLevel)));
    reflexivity.
Defined.
